(** * libmproxy/protocol/tls.py: the TLS layer of the proxy

    A shallow embedding of [TlsLayer] and of [is_tls_record_magic].  Python
    byte strings read off the wire are [list byte]; host names and ALPN tokens
    are [string]; Python ints are [Z]; the SAN set built by [_find_cert] is a
    [gset string].  The layer's methods run in a state-and-exception monad over
    a [World] that holds the layer's attributes, the two connection objects,
    the log and the calls made on the surrounding context. *)

From Stdlib Require Import ZArith List Strings.String Strings.Byte Bool Lia.
From stdpp Require Import base gmap strings list.

Import ListNotations.
Local Open Scope string_scope.
Local Open Scope list_scope.
Local Open Scope Z_scope.

(** ** Byte strings *)

Abbreviation bytes := (list byte).

Definition len {A : Type} (l : list A) : Z := Z.of_nat (length l).

(** [s[a:b]], [s[a:]] and [s[:b]] for non-negative indices. *)
Definition slice {A : Type} (a b : Z) (s : list A) : list A :=
  firstn (Z.to_nat (b - a)) (skipn (Z.to_nat a) s).
Definition slice_from {A : Type} (a : Z) (s : list A) : list A :=
  skipn (Z.to_nat a) s.
Definition slice_to {A : Type} (b : Z) (s : list A) : list A :=
  firstn (Z.to_nat b) s.

Definition byte_val (b : byte) : Z := Z.of_N (Byte.to_N b).

(** ** Exceptions *)

(** The messages of the [ProtocolException]s the layer raises. The cause
    (a [NetLibError]) is kept by its text. *)
Inductive ProtoMsg : Type :=
| ExpectedTlsRecord (got : bytes)
| UnexpectedEOF (record_body : bytes)
| CannotEstablishTlsWithClient (cause : string)
| CannotEstablishTlsWithServer (address : string * Z) (sni : option string)
    (cause : string).

Inductive PyExc : Type :=
| ProtocolException (msg : ProtoMsg)
| NetLibError (info : string)
| NetLibInvalidCertificateError (info : string)
| ConstructError (info : string)
| StructError                      (* struct.error *)
| IndexError
| TypeError
| UnicodeError
| OtherException (info : string)   (* any other subclass of Exception *)
| KeyboardInterrupt.               (* a BaseException that is no Exception *)

(** [isinstance(e, Exception)] *)
Definition is_Exception (e : PyExc) : bool :=
  match e with
  | KeyboardInterrupt => false
  | _ => true
  end.

(** [isinstance(e, NetLibError)]: the invalid-certificate error is a subclass. *)
Definition is_NetLibError (e : PyExc) : option string :=
  match e with
  | NetLibError i | NetLibInvalidCertificateError i => Some i
  | _ => None
  end.

Definition is_ProtocolException (e : PyExc) : bool :=
  match e with
  | ProtocolException _ => true
  | _ => false
  end.

Definition is_ConstructError (e : PyExc) : bool :=
  match e with
  | ConstructError _ => true
  | _ => false
  end.

(** ** struct.unpack *)

(** [struct.unpack("!H", s)[0]]: exactly two bytes, big-endian. *)
Definition unpack_H (s : bytes) : PyExc + Z :=
  match s with
  | [b1; b0] => inr (byte_val b1 * 256 + byte_val b0)
  | _ => inl StructError
  end.

(** [struct.unpack("!I", s)[0]]: exactly four bytes, big-endian. *)
Definition unpack_I (s : bytes) : PyExc + Z :=
  match s with
  | [b3; b2; b1; b0] =>
      inr (((byte_val b3 * 256 + byte_val b2) * 256 + byte_val b1) * 256
           + byte_val b0)
  | _ => inl StructError
  end.

(** ** is_tls_record_magic *)

Definition is_tls_record_magic (d : bytes) : bool :=
  let d := slice_to 3 d in
  match d with
  | [d0; d1; d2] =>
      Byte.eqb d0 x16 && Byte.eqb d1 x03 &&
      (Byte.eqb d2 x00 || Byte.eqb d2 x01 || Byte.eqb d2 x02 || Byte.eqb d2 x03)
  | _ => false
  end.

(** ** The parsed ClientHello *)

(** Modelled from the spec: the containers that [ClientHello.parse] of
    [contrib/tls/_constructs.py] returns (section 3 of the specification):
    an extension carries its [type] and, for type [0x00], the [server_names]
    and, for type [0x10], the [alpn_protocols]. *)
Record ServerName : Type := mkServerName {
  sn_type : Z;
  sn_name : string
}.

Record Extension : Type := mkExtension {
  ext_type : Z;
  server_names : list ServerName;
  alpn_protocols : list string;
  ext_bytes : bytes
}.

Record ClientHello : Type := mkClientHello {
  ch_version : Z;
  ch_random : bytes;
  ch_session_id : bytes;
  ch_cipher_suites : list Z;
  ch_compression_methods : list Z;
  extensions : list Extension
}.

(** ** The layer and its world *)

(** [_sni_from_server_change]: [None], [False] or a string. *)
Inductive SniOverride : Type :=
| Unset                      (* None *)
| ForceNone                  (* False *)
| Explicit (name : string).

(** Truth value of a Python string. *)
Definition str_truthy (s : string) : bool := negb (String.eqb s "").

Record Cert : Type := mkCert {
  altnames : list string;
  cn : option string
}.

Record VerifyErr : Type := mkVerifyErr {
  ve_depth : Z;
  ve_errno : Z
}.

Record Address : Type := mkAddress {
  addr_host : string;
  addr_port : Z
}.

(** [self.server_conn] *)
Record ServerConn : Type := mkServerConn {
  sc_connected : bool;                   (* truth value of the object *)
  address : Address;
  tls_established : bool;
  cert : Cert;
  ssl_verification_error : option VerifyErr;
  alpn_proto_negotiated : option string  (* get_alpn_proto_negotiated() *)
}.

(** [self.client_conn]: [rfile] holds the bytes the client has sent and that
    nobody has read yet. *)
Record ClientConn : Type := mkClientConn {
  rfile : bytes;
  cc_tls_established : bool
}.

Inductive Level : Type := debug | error.

Inductive LogMsg : Type :=
| CannotParseClientHello (e : PyExc)
| RawClientHello (raw : bytes)
| UnknownServerNameIndication (names : list ServerName)
| ParsedClientHello (sni : option string) (alpn : option (list string))
| AlpnForClient (choice : string)
| EstablishTlsWithClient
| EstablishTlsWithServer
| TlsVerificationFailed (depth errno : Z)
| IgnoringServerVerificationError
| AbortingConnectionAttempt
| AlpnSelectedByServer (alpn : option string).

(** Calls made on [self.ctx]. *)
Inductive CtxCall : Type :=
| CtxConnect
| CtxReconnect
| CtxSetServer (address : Address) (server_tls : option bool)
    (sni : SniOverride) (depth : Z).

Record World : Type := mkWorld {
  client_sni : option string;
  client_alpn_protocols : option (list string);
  _client_tls : bool;
  _server_tls : bool;
  _sni_from_server_change : SniOverride;
  server_conn : ServerConn;
  client_conn : ClientConn;
  log_of : list (LogMsg * Level);          (* oldest first *)
  ctx_calls : list CtxCall                 (* oldest first *)
}.

(** ** The monad *)

Inductive Outcome (A : Type) : Type :=
| Return (a : A)
| Raise (e : PyExc)
| OutOfFuel.
Arguments Return {A} a.
Arguments Raise {A} e.
Arguments OutOfFuel {A}.

Definition M (A : Type) : Type := World -> Outcome A * World.

Definition ret {A} (a : A) : M A := fun w => (Return a, w).
Definition raise {A} (e : PyExc) : M A := fun w => (Raise e, w).
Definition bind {A B} (m : M A) (k : A -> M B) : M B :=
  fun w =>
    match m w with
    | (Return a, w') => k a w'
    | (Raise e, w') => (Raise e, w')
    | (OutOfFuel, w') => (OutOfFuel, w')
    end.

Notation "x <- m ;; k" := (bind m (fun x => k))
  (at level 100, m at next level, right associativity).
Notation "m ;;; k" := (bind m (fun _ => k))
  (at level 100, right associativity).

Definition lift {A} (r : PyExc + A) : M A :=
  match r with
  | inl e => raise e
  | inr a => ret a
  end.

Definition get : M World := fun w => (Return w, w).

Definition log (m : LogMsg) (l : Level) : M unit :=
  fun w =>
    (Return tt,
     mkWorld (client_sni w) (client_alpn_protocols w) (_client_tls w)
       (_server_tls w) (_sni_from_server_change w) (server_conn w)
       (client_conn w) (log_of w ++ [(m, l)]) (ctx_calls w)).

(** [attempt m] runs [m] and hands its exception, if any, to the code that
    follows: the [try] of a [try ... except] statement. *)
Definition attempt {A} (m : M A) : M (PyExc + A) :=
  fun w =>
    match m w with
    | (Return a, w') => (Return (inr a), w')
    | (Raise e, w') => (Return (inl e), w')
    | (OutOfFuel, w') => (OutOfFuel, w')
    end.

Definition set_client_sni (v : option string) : M unit :=
  fun w =>
    (Return tt,
     mkWorld v (client_alpn_protocols w) (_client_tls w) (_server_tls w)
       (_sni_from_server_change w) (server_conn w) (client_conn w)
       (log_of w) (ctx_calls w)).

Definition set_client_alpn_protocols (v : option (list string)) : M unit :=
  fun w =>
    (Return tt,
     mkWorld (client_sni w) v (_client_tls w) (_server_tls w)
       (_sni_from_server_change w) (server_conn w) (client_conn w)
       (log_of w) (ctx_calls w)).

Definition set__server_tls (v : bool) : M unit :=
  fun w =>
    (Return tt,
     mkWorld (client_sni w) (client_alpn_protocols w) (_client_tls w) v
       (_sni_from_server_change w) (server_conn w) (client_conn w)
       (log_of w) (ctx_calls w)).

Definition set__sni_from_server_change (v : SniOverride) : M unit :=
  fun w =>
    (Return tt,
     mkWorld (client_sni w) (client_alpn_protocols w) (_client_tls w)
       (_server_tls w) v (server_conn w) (client_conn w)
       (log_of w) (ctx_calls w)).

(** A method of the server connection, or of the context acting on it: it
    leaves the connection in a new state and may raise. *)
Definition on_server_conn (f : ServerConn -> option PyExc * ServerConn)
    : M unit :=
  fun w =>
    let '(r, sc) := f (server_conn w) in
    let w' :=
      mkWorld (client_sni w) (client_alpn_protocols w) (_client_tls w)
        (_server_tls w) (_sni_from_server_change w) sc (client_conn w)
        (log_of w) (ctx_calls w) in
    match r with
    | Some e => (Raise e, w')
    | None => (Return tt, w')
    end.

Definition set_client_conn (cc : ClientConn) : M unit :=
  fun w =>
    (Return tt,
     mkWorld (client_sni w) (client_alpn_protocols w) (_client_tls w)
       (_server_tls w) (_sni_from_server_change w) (server_conn w) cc
       (log_of w) (ctx_calls w)).

Definition record_ctx_call (c : CtxCall) : M unit :=
  fun w =>
    (Return tt,
     mkWorld (client_sni w) (client_alpn_protocols w) (_client_tls w)
       (_server_tls w) (_sni_from_server_change w) (server_conn w)
       (client_conn w) (log_of w) (ctx_calls w ++ [c])).

(** [self.client_conn.rfile.peek(n)]: up to [n] of the unread bytes, none of
    them consumed. *)
Definition peek (n : Z) : M bytes :=
  fun w => (Return (slice_to n (rfile (client_conn w))), w).

(** An object the layer only passes on (engine options, cipher lists, keys). *)
Inductive PyObject : Type := PyObj (id : Z).

(** What [client_conn.convert_to_ssl] does with the callback it is handed.
    The engine either ends the handshake, leaving the client connection in a
    new state and perhaps raising, or it calls [alpn_select_callback] with
    the protocols the client offered and goes on from what the call returned
    or raised.  It may call any finite number of times. *)
Inductive Handshake : Type :=
  | HandshakeEnd (r : option PyExc) (cc : ClientConn)
  | AlpnSelect (conn_ : PyObject) (options : list string)
      (resume : PyExc + string -> Handshake).

(** The handshake runs on the layer's world: each call of the callback is a
    call of the layer's method, with whatever that method does to the layer. *)
Fixpoint run_handshake
    (alpn_select_callback : PyObject -> list string -> M string)
    (hs : Handshake) : M unit :=
  match hs with
  | HandshakeEnd r cc =>
      set_client_conn cc ;;;
      match r with
      | Some e => raise e
      | None => ret tt
      end
  | AlpnSelect conn_ options resume =>
      r <- attempt (alpn_select_callback conn_ options) ;;
      run_handshake alpn_select_callback (resume r)
  end.

(** A method of the client connection that takes a callback of the layer. *)
Definition on_client_handshake (f : ClientConn -> Handshake)
    (alpn_select_callback : PyObject -> list string -> M string) : M unit :=
  w <- get ;;
  run_handshake alpn_select_callback (f (client_conn w)).

Record Config : Type := mkConfig {
  no_upstream_cert : bool;
  openssl_method_client : PyObject;
  openssl_options_client : PyObject;
  ciphers_client : PyObject;
  certstore_dhparams : PyObject;
  clientcerts : PyObject;
  openssl_method_server : PyObject;
  openssl_options_server : PyObject;
  openssl_verification_mode_server : PyObject;
  openssl_trusted_cadir_server : PyObject;
  openssl_trusted_ca_server : PyObject;
  ciphers_server : PyObject
}.

(** [HTTP1Protocol.ALPN_PROTO_HTTP1] of netlib. *)
Definition ALPN_PROTO_HTTP1 : string := "http/1.1".

(** [x.startswith(p)] *)
Definition startswith (p x : string) : bool := String.prefix p x.

(** [x in options] for an [x] that is a string or [None]. *)
Definition py_in (x : option string) (options : list string) : bool :=
  match x with
  | Some s => bool_decide (s ∈ options)
  | None => false
  end.

(** ** Sample collaborators and worlds

    Concrete objects on which the statements below are exercised. *)

Module Samples.

Definition address0 : Address := mkAddress "1.2.3.4" 443.
Definition address1 : Address := mkAddress "b.com" 8443.

Definition cert0 : Cert := mkCert [] None.
Definition cert_orig : Cert := mkCert ["alt1.com"] (Some "orig.com").

(** No connection to the server yet. *)
Definition sc_fresh : ServerConn :=
  mkServerConn false address0 false cert0 None None.
(** Connected, TLS not established. *)
Definition sc_plain : ServerConn :=
  mkServerConn true address0 false cert0 None None.
(** Connected, TLS established, [h2] negotiated. *)
Definition sc_tls : ServerConn :=
  mkServerConn true address0 true cert_orig None (Some "h2").
(** As [sc_tls], with a verification error at depth 1, code 19. *)
Definition sc_tls_unverified : ServerConn :=
  mkServerConn true address0 true cert_orig (Some (mkVerifyErr 1 19))
    (Some "h2").

Definition world_of (sni : option string) (override : SniOverride)
    (server_tls : bool) (sc : ServerConn) (stream : bytes) : World :=
  mkWorld sni None true server_tls override sc (mkClientConn stream false)
    [] [].

Definition config0 : Config :=
  mkConfig false (PyObj 1) (PyObj 2) (PyObj 3) (PyObj 4) (PyObj 5) (PyObj 6)
    (PyObj 7) (PyObj 8) (PyObj 9) (PyObj 10) (PyObj 11).

Definition ctx_connect_ok (sc : ServerConn) : option PyExc * ServerConn :=
  (None,
   mkServerConn true (address sc) false (cert sc) None None).

Definition ctx_set_server_ok (a : Address) (server_tls : option bool)
    (sni : SniOverride) (depth : Z) (sc : ServerConn)
    : option PyExc * ServerConn :=
  (None,
   mkServerConn (sc_connected sc) a (tls_established sc) (cert sc)
     (ssl_verification_error sc) (alpn_proto_negotiated sc)).

(** The handshake with the server completes; the peer's chain does not
    verify. *)
Definition establish_ssl_unverified
    (clientcerts : PyObject) (sni : option string)
    (method options verify_options ca_path ca_pemfile cipher_list : PyObject)
    (alpn_protos : option (list string)) (sc : ServerConn)
    : option PyExc * ServerConn :=
  (None, sc_tls_unverified).

(** The handshake with the server fails. *)
Definition establish_ssl_fails
    (clientcerts : PyObject) (sni : option string)
    (method options verify_options ca_path ca_pemfile cipher_list : PyObject)
    (alpn_protos : option (list string)) (sc : ServerConn)
    : option PyExc * ServerConn :=
  (Some (NetLibError "handshake failure"), sc).

(** The handshake with the client fails as well. *)
Definition convert_to_ssl_fails
    (cert key method options cipher_list dhparams chain_file : PyObject)
    (cc : ClientConn) : Handshake :=
  HandshakeEnd (Some (NetLibError "client went away")) cc.

(** The client offers protocols, the engine asks the layer to choose, and the
    handshake succeeds when the layer chose; an exception of the callback
    ends it. *)
Definition convert_to_ssl_alpn
    (cert key method options cipher_list dhparams chain_file : PyObject)
    (cc : ClientConn) : Handshake :=
  AlpnSelect (PyObj 7) ["h2"; "http/1.1"]
    (fun r =>
       match r with
       | inr _ => HandshakeEnd None (mkClientConn (rfile cc) true)
       | inl e => HandshakeEnd (Some e) cc
       end).

(** The client goes away after the layer chose a protocol. *)
Definition convert_to_ssl_alpn_fails
    (cert key method options cipher_list dhparams chain_file : PyObject)
    (cc : ClientConn) : Handshake :=
  AlpnSelect (PyObj 7) ["spdy/3"; "h2"]
    (fun _ => HandshakeEnd (Some (NetLibError "client went away")) cc).

Definition get_cert_ok (host : string) (sans : gset string)
    : PyExc + (PyObject * PyObject * PyObject) :=
  inr (PyObj 100, PyObj 101, PyObj 102).

Definition encode_idna_ascii (s : string) : PyExc + string := inr s.

(** A server-name extension with two entries, the first of them not a host
    name. *)
Definition ext_sni_two : Extension :=
  mkExtension 0 [mkServerName 1 "x"; mkServerName 0 "a.com"] [] [].
Definition ext_sni_empty : Extension := mkExtension 0 [] [] [].
Definition ext_alpn : Extension := mkExtension 16 [] ["h2"; "http/1.1"] [].

Definition hello_of (exts : list Extension) : ClientHello :=
  mkClientHello 771 [] [] [] [] exts.

Definition parse_to (h : ClientHello) (raw : bytes) : PyExc + ClientHello :=
  inr h.
Definition parse_fails (raw : bytes) : PyExc + ClientHello :=
  inl (ConstructError "FieldError").

(** A ClientHello of two body bytes: type 1, length 2. *)
Definition hello_msg : bytes := [x01; x00; x00; x02; x03; x03].
(** ... in one record, *)
Definition stream_one_record : bytes :=
  [x16; x03; x01; x00; x06; x01; x00; x00; x02; x03; x03].
(** ... in two records of four and two bytes, *)
Definition stream_two_records : bytes :=
  [x16; x03; x01; x00; x04; x01; x00; x00; x02;
   x16; x03; x01; x00; x02; x03; x03].
(** ... and in two records of one and five bytes. *)
Definition stream_short_first_record : bytes :=
  [x16; x03; x01; x00; x01; x01;
   x16; x03; x01; x00; x05; x00; x00; x02; x03; x03].
(** One record with an empty body. *)
Definition stream_empty_record : bytes := [x16; x03; x01; x00; x00].
(** No TLS at all. *)
Definition stream_http : bytes := [x47; x45; x54; x20; x2f].

(** A client that sent [stream_one_record]; nothing is connected yet. *)
Definition w_hello : World :=
  world_of None Unset false sc_fresh stream_one_record.

(** The server-first path: the client asked for [a.com]. *)
Definition w_start : World :=
  world_of (Some "a.com") Unset true sc_fresh stream_one_record.
(** ... after the context connected, *)
Definition w_connected : World :=
  mkWorld (Some "a.com") None true true Unset sc_plain
    (mkClientConn stream_one_record false) [] [CtxConnect].
(** ... and after the handshake with the server failed. *)
Definition w_server_failed : World :=
  mkWorld (Some "a.com") None true true Unset sc_plain
    (mkClientConn stream_one_record false)
    [(EstablishTlsWithServer, debug)] [CtxConnect].
Definition server_error : PyExc :=
  ProtocolException
    (CannotEstablishTlsWithServer ("1.2.3.4", 443) (Some "a.com")
       "handshake failure").

(** TLS with the server is established; the client asked for [sni.com]. *)
Definition w_mirror : World :=
  world_of (Some "sni.com") Unset true sc_tls [].

(** Connected in the clear, server TLS wanted. *)
Definition w_plain : World := world_of None Unset true sc_plain [].

(** The server's certificate is refused, at depth 0 with code 18. *)
Definition sc_refused : ServerConn :=
  mkServerConn true address0 false cert0 (Some (mkVerifyErr 0 18)) None.
Definition establish_ssl_bad_cert
    (clientcerts : PyObject) (sni : option string)
    (method options verify_options ca_path ca_pemfile cipher_list : PyObject)
    (alpn_protos : option (list string)) (sc : ServerConn)
    : option PyExc * ServerConn :=
  (Some (NetLibInvalidCertificateError "self signed certificate"),
   sc_refused).

(** The handshake with the server is interrupted. *)
Definition establish_ssl_interrupted
    (clientcerts : PyObject) (sni : option string)
    (method options verify_options ca_path ca_pemfile cipher_list : PyObject)
    (alpn_protos : option (list string)) (sc : ServerConn)
    : option PyExc * ServerConn :=
  (Some KeyboardInterrupt, sc).

(** A server that fails only when it is offered no ALPN protocols. *)
Definition establish_ssl_needs_alpn
    (clientcerts : PyObject) (sni : option string)
    (method options verify_options ca_path ca_pemfile cipher_list : PyObject)
    (alpn_protos : option (list string)) (sc : ServerConn)
    : option PyExc * ServerConn :=
  match alpn_protos with
  | None => (Some (NetLibError "handshake failure"), sc)
  | Some _ => (None, sc_tls_unverified)
  end.

Definition get_cert_fails (host : string) (sans : gset string)
    : PyExc + (PyObject * PyObject * PyObject) :=
  inl (OtherException "no certificate authority").

Definition ctx_connect_fails (sc : ServerConn)
    : option PyExc * ServerConn :=
  (Some (NetLibError "connection refused"), sc).

Definition ctx_set_server_fails (a : Address) (server_tls : option bool)
    (sni : SniOverride) (depth : Z) (sc : ServerConn)
    : option PyExc * ServerConn :=
  (Some (OtherException "cannot change the server"), sc).

(** A record that announces five bytes and brings two. *)
Definition stream_truncated : bytes := [x16; x03; x01; x00; x05; x01; x00].

(** The server-first path after a handshake with the server that went
    through, by [establish_ssl_unverified]. *)
Definition w_server_done : World :=
  mkWorld (Some "a.com") None true true Unset sc_tls_unverified
    (mkClientConn stream_one_record false)
    [(EstablishTlsWithServer, debug);
     (TlsVerificationFailed 1 19, error);
     (IgnoringServerVerificationError, error);
     (AlpnSelectedByServer (Some "h2"), debug)]
    [CtxConnect].

End Samples.

(** ** The layer's methods *)

Section TlsLayer.

(** [self.config] *)
Variable config : Config.

(** The collaborators of the layer. Each one acts on the object it belongs
    to and may raise. *)
Variable ClientHello_parse : bytes -> PyExc + ClientHello.
Variable ctx_connect : ServerConn -> option PyExc * ServerConn.
Variable ctx_reconnect : ServerConn -> option PyExc * ServerConn.
Variable ctx_set_server :
  Address -> option bool -> SniOverride -> Z ->
  ServerConn -> option PyExc * ServerConn.
Variable establish_ssl :
  forall (clientcerts : PyObject) (sni : option string)
    (method options verify_options ca_path ca_pemfile cipher_list : PyObject)
    (alpn_protos : option (list string)),
    ServerConn -> option PyExc * ServerConn.
Variable convert_to_ssl :
  forall (cert key method options cipher_list dhparams chain_file : PyObject),
    ClientConn -> Handshake.
Variable get_cert :
  string -> gset string -> PyExc + (PyObject * PyObject * PyObject).
(** [s.decode("utf8").encode("idna")] *)
Variable encode_idna : string -> PyExc + string.

Fixpoint _get_client_hello_loop (fuel : nat) (client_hello : bytes)
    (client_hello_size offset : Z) : M bytes :=
  if len client_hello <? client_hello_size then
    match fuel with
    | O => fun w => (OutOfFuel, w)
    | S fuel' =>
        p <- peek (offset + 5) ;;
        let record_header := slice_from offset p in
        if negb (is_tls_record_magic record_header)
           || negb (len record_header =? 5)
        then raise (ProtocolException (ExpectedTlsRecord record_header))
        else
          n <- lift (unpack_H (slice_from 3 record_header)) ;;
          let record_size := n + 5 in
          p' <- peek (offset + record_size) ;;
          let record_body := slice_from (offset + 5) p' in
          if negb (len record_body =? record_size - 5)
          then raise (ProtocolException (UnexpectedEOF record_body))
          else
            let client_hello := (client_hello ++ record_body)%list in
            let offset := offset + record_size in
            n' <- lift (unpack_I (x00 :: slice 1 4 client_hello)) ;;
            let client_hello_size := n' + 4 in
            _get_client_hello_loop fuel' client_hello client_hello_size
              offset
    end
  else ret client_hello.

(** Every round of the loop moves [offset] at least five bytes further into
    the unread bytes, so one round per unread byte is more than enough. *)
Definition _get_client_hello : M bytes :=
  w <- get ;;
  _get_client_hello_loop (S (length (rfile (client_conn w)))) [] 1 0.

(** The body of [for extension in client_hello.extensions]. *)
Definition visit_extension (extension : Extension) : M unit :=
  if ext_type extension =? 0x00 then
    (if negb (len (server_names extension) =? 1)
        || match server_names extension with
           | sn :: _ => negb (sn_type sn =? 0)
           | [] => true
           end
     then log (UnknownServerNameIndication (server_names extension)) error
     else ret tt) ;;;
    match server_names extension with
    | sn :: _ => set_client_sni (Some (sn_name sn))
    | [] => raise IndexError
    end
  else if ext_type extension =? 0x10 then
    set_client_alpn_protocols (Some (alpn_protocols extension))
  else ret tt.

Fixpoint visit_extensions (exts : list Extension) : M unit :=
  match exts with
  | [] => ret tt
  | extension :: rest => visit_extension extension ;;; visit_extensions rest
  end.

Definition _parse_client_hello : M unit :=
  r <- attempt _get_client_hello ;;
  match r with
  | inl e =>
      if is_ProtocolException e
      then log (CannotParseClientHello e) error
      else raise e
  | inr hello =>
      let raw_client_hello := slice_from 4 hello in
      match ClientHello_parse raw_client_hello with
      | inl e =>
          if is_ConstructError e
          then log (CannotParseClientHello e) error ;;;
               log (RawClientHello raw_client_hello) debug
          else raise e
      | inr client_hello =>
          visit_extensions (extensions client_hello) ;;;
          w <- get ;;
          log (ParsedClientHello (client_sni w) (client_alpn_protocols w))
            debug
      end
  end.

Definition sni_for_server_connection (w : World) : option string :=
  match _sni_from_server_change w with
  | ForceNone => None
  | Explicit name => if str_truthy name then Some name else client_sni w
  | Unset => client_sni w
  end.

Definition alpn_for_client_connection (w : World) : option string :=
  alpn_proto_negotiated (server_conn w).

Definition __alpn_select_callback (conn_ : PyObject)
    (options : list string) : M string :=
  let default_alpn := ALPN_PROTO_HTTP1 in
  w <- get ;;
  choice <-
    (if py_in (alpn_for_client_connection w) options then
       match alpn_for_client_connection w with
       | Some p => ret p
       | None => raise TypeError
       end
     else if bool_decide (default_alpn ∈ options) then ret default_alpn
     else
       match options with
       | o :: _ => ret o
       | [] => raise IndexError
       end) ;;
  log (AlpnForClient choice) debug ;;;
  ret choice.

Definition deprecated_http2_variant (x : string) : bool :=
  startswith "h2-" x || startswith "spdy" x.

Definition _establish_tls_with_server : M unit :=
  log EstablishTlsWithServer debug ;;;
  r <- attempt
    (w <- get ;;
     let alpn :=
       match client_alpn_protocols w with
       | Some (p :: ps) =>
           Some (List.filter (fun x => negb (deprecated_http2_variant x))
                   (p :: ps))
       | _ => None
       end in
     on_server_conn
       (establish_ssl (clientcerts config) (sni_for_server_connection w)
          (openssl_method_server config) (openssl_options_server config)
          (openssl_verification_mode_server config)
          (openssl_trusted_cadir_server config)
          (openssl_trusted_ca_server config) (ciphers_server config)
          alpn) ;;;
     w <- get ;;
     match ssl_verification_error (server_conn w) with
     | Some tls_cert_err =>
         log (TlsVerificationFailed (ve_depth tls_cert_err)
                (ve_errno tls_cert_err)) error ;;;
         log IgnoringServerVerificationError error
     | None => ret tt
     end) ;;
  match r with
  | inl (NetLibInvalidCertificateError i) =>
      w <- get ;;
      match ssl_verification_error (server_conn w) with
      | Some tls_cert_err =>
          log (TlsVerificationFailed (ve_depth tls_cert_err)
                 (ve_errno tls_cert_err)) error ;;;
          log AbortingConnectionAttempt error ;;;
          w <- get ;;
          raise (ProtocolException
                   (CannotEstablishTlsWithServer
                      (addr_host (address (server_conn w)),
                       addr_port (address (server_conn w)))
                      (sni_for_server_connection w) i))
      | None => raise TypeError
      end
  | inl (NetLibError i) =>
      w <- get ;;
      raise (ProtocolException
               (CannotEstablishTlsWithServer
                  (addr_host (address (server_conn w)),
                   addr_port (address (server_conn w)))
                  (sni_for_server_connection w) i))
  | inl e => raise e
  | inr _ => ret tt
  end ;;;
  w <- get ;;
  log (AlpnSelectedByServer (alpn_for_client_connection w)) debug.

Definition _find_cert : M (PyObject * PyObject * PyObject) :=
  w <- get ;;
  let host := addr_host (address (server_conn w)) in
  let sans : gset string := ∅ in
  let use_upstream_cert :=
    sc_connected (server_conn w) && tls_established (server_conn w)
    && negb (no_upstream_cert config) in
  hs <-
    (if use_upstream_cert then
       let upstream_cert := cert (server_conn w) in
       let sans := sans ∪ list_to_set (altnames upstream_cert) in
       match cn upstream_cert with
       | Some c =>
           if str_truthy c then
             let sans := sans ∪ {[host]} in
             host <- lift (encode_idna c) ;;
             ret (host, sans)
           else ret (host, sans)
       | None => ret (host, sans)
       end
     else ret (host, sans)) ;;
  let '(host, sans) := hs in
  let sans :=
    match client_sni w with
    | Some s => if str_truthy s then sans ∪ {[s]} else sans
    | None => sans
    end in
  let sans :=
    match _sni_from_server_change w with
    | Explicit s => if str_truthy s then sans ∪ {[s]} else sans
    | _ => sans
    end in
  let sans := sans ∖ {[host]} in
  lift (get_cert host sans).

Definition _establish_tls_with_client : M unit :=
  log EstablishTlsWithClient debug ;;;
  ckc <- _find_cert ;;
  let '(cert, key, chain_file) := ckc in
  r <- attempt
    (on_client_handshake
       (convert_to_ssl cert key (openssl_method_client config)
          (openssl_options_client config) (ciphers_client config)
          (certstore_dhparams config) chain_file)
       __alpn_select_callback) ;;
  match r with
  | inl e =>
      match is_NetLibError e with
      | Some i => raise (ProtocolException (CannotEstablishTlsWithClient i))
      | None => raise e
      end
  | inr _ => ret tt
  end.

Definition ctx_call (c : CtxCall)
    (f : ServerConn -> option PyExc * ServerConn) : M unit :=
  record_ctx_call c ;;; on_server_conn f.

Definition _establish_tls_with_client_and_server : M unit :=
  ctx_call CtxConnect ctx_connect ;;;
  r <- attempt _establish_tls_with_server ;;
  match r with
  | inl e =>
      if is_Exception e then
        attempt _establish_tls_with_client ;;;   (* except: pass *)
        raise e
      else raise e
  | inr _ => ret tt
  end ;;;
  _establish_tls_with_client.

Definition connect : M unit :=
  w <- get ;;
  (if negb (sc_connected (server_conn w))
   then ctx_call CtxConnect ctx_connect
   else ret tt) ;;;
  w <- get ;;
  if _server_tls w && negb (tls_established (server_conn w))
  then _establish_tls_with_server
  else ret tt.

Definition reconnect : M unit :=
  ctx_call CtxReconnect ctx_reconnect ;;;
  w <- get ;;
  if _server_tls w && negb (tls_established (server_conn w))
  then _establish_tls_with_server
  else ret tt.

Definition set_server (address : Address) (server_tls : option bool)
    (sni : SniOverride) (depth : Z) : M unit :=
  match depth =? 1, server_tls with
  | true, Some tls =>
      ctx_call (CtxSetServer address None Unset 1)
        (ctx_set_server address None Unset 1) ;;;
      set__sni_from_server_change sni ;;;
      set__server_tls tls
  | _, _ =>
      ctx_call (CtxSetServer address server_tls sni depth)
        (ctx_set_server address server_tls sni depth)
  end.

(** [self.ctx.next_layer(self)] and the call of the layer it returns. *)
Variable next_layer : M unit.

Definition __call__ : M unit :=
  w <- get ;;
  let client_tls_requires_server_cert :=
    _client_tls w && _server_tls w && negb (no_upstream_cert config) in
  (if _client_tls w then _parse_client_hello else ret tt) ;;;
  w <- get ;;
  (if client_tls_requires_server_cert
   then _establish_tls_with_client_and_server
   else if _client_tls w then _establish_tls_with_client
   else ret tt) ;;;
  next_layer.

Definition __repr__ (w : World) : string :=
  if _client_tls w && _server_tls w then "TlsLayer(client and server)"
  else if _client_tls w then "TlsLayer(client)"
  else if _server_tls w then "TlsLayer(server)"
  else "TlsLayer(inactive)".

(** ** Notions the statements use *)

(** How often the layer set out to establish TLS with the client: each call of
    [_establish_tls_with_client] logs [EstablishTlsWithClient] first. *)
Definition is_client_attempt (entry : LogMsg * Level) : bool :=
  match fst entry with
  | EstablishTlsWithClient => true
  | _ => false
  end.
Definition client_attempts (w : World) : nat :=
  length (List.filter is_client_attempt (log_of w)).

(** The specification's reading of a server-name extension: the name of the
    first entry of type 0, if there is one. *)
Definition first_type0_name (names : list ServerName) : option string :=
  match List.filter (fun sn => sn_type sn =? 0) names with
  | sn :: _ => Some (sn_name sn)
  | [] => None
  end.

(** What the walk over the extensions leaves in [client_sni]: the name of the
    first entry of the last server-name extension. *)
Fixpoint sni_after_walk (exts : list Extension) (sni : option string)
    : option string :=
  match exts with
  | [] => sni
  | e :: rest =>
      sni_after_walk rest
        (if ext_type e =? 0 then
           match server_names e with
           | sn :: _ => Some (sn_name sn)
           | [] => sni
           end
         else sni)
  end.

(** The server-name extensions the walk complains about. *)
Definition sni_warned (e : Extension) : bool :=
  (ext_type e =? 0) &&
  match server_names e with
  | [sn] => negb (sn_type sn =? 0)
  | _ => true
  end.

(** The upstream certificate is mirrored. *)
Definition mirrors_upstream (w : World) : bool :=
  sc_connected (server_conn w) && tls_established (server_conn w)
  && negb (no_upstream_cert config).

(** The common name of the mirrored upstream certificate, if it has one. *)
Definition upstream_cn (w : World) : option string :=
  if mirrors_upstream w then
    match cn (cert (server_conn w)) with
    | Some c => if str_truthy c then Some c else None
    | None => None
    end
  else None.

Definition opt_name_set (o : option string) : gset string :=
  match o with
  | Some s => if str_truthy s then {[s]} else ∅
  | None => ∅
  end.

Definition override_name (o : SniOverride) : option string :=
  match o with
  | Explicit s => Some s
  | _ => None
  end.

(** The SAN set as the specification words it, for the primary subject
    [host]: the upstream alternative names, the dialled host when the common
    name took its place, the client's SNI and the SNI override, less [host]. *)
Definition claimed_sans (w : World) (host : string) : gset string :=
  ((if mirrors_upstream w
    then list_to_set (altnames (cert (server_conn w)))
    else ∅)
   ∪ match upstream_cn w with
     | Some _ => {[addr_host (address (server_conn w))]}
     | None => ∅
     end
   ∪ opt_name_set (client_sni w)
   ∪ opt_name_set (override_name (_sni_from_server_change w)))
  ∖ {[host]}.

(** A TLS record as it stands on the wire. *)
Record TlsRecord : Type := mkTlsRecord {
  rec_minor : byte;
  rec_len_hi : byte;
  rec_len_lo : byte;
  rec_body : bytes
}.

Definition record_ok (r : TlsRecord) : Prop :=
  (Byte.eqb (rec_minor r) x00 || Byte.eqb (rec_minor r) x01
   || Byte.eqb (rec_minor r) x02 || Byte.eqb (rec_minor r) x03) = true
  /\ byte_val (rec_len_hi r) * 256 + byte_val (rec_len_lo r)
     = len (rec_body r).

Definition encode_record (r : TlsRecord) : bytes :=
  [x16; x03; rec_minor r; rec_len_hi r; rec_len_lo r] ++ rec_body r.

Definition encode_records (rs : list TlsRecord) : bytes :=
  concat (List.map encode_record rs).

Definition bodies (rs : list TlsRecord) : bytes :=
  concat (List.map rec_body rs).

(** A handshake message: one type byte, three length bytes, and as many bytes
    as these announce. *)
Definition handshake_ok (m : bytes) : Prop :=
  match m with
  | _ :: l2 :: l1 :: l0 :: body =>
      len body = (byte_val l2 * 256 + byte_val l1) * 256 + byte_val l0
  | _ => False
  end.

(** The world after a call on the context that left the server connection
    as [sc]. *)
Definition after_ctx_call (w : World) (c : CtxCall) (sc : ServerConn)
    : World :=
  mkWorld (client_sni w) (client_alpn_protocols w) (_client_tls w)
    (_server_tls w) (_sni_from_server_change w) sc (client_conn w)
    (log_of w) (ctx_calls w ++ [c]).

Definition outcome_of (r : option PyExc) : Outcome unit :=
  match r with
  | Some e => Raise e
  | None => Return tt
  end.

(** The layer's own server-TLS flag and SNI override set to [tls] and
    [sni]. *)
Definition with_override (w : World) (tls : bool) (sni : SniOverride)
    : World :=
  mkWorld (client_sni w) (client_alpn_protocols w) (_client_tls w) tls sni
    (server_conn w) (client_conn w) (log_of w) (ctx_calls w).

(** What the walk leaves in [client_alpn_protocols]: the list of the last
    ALPN extension, in the order the client gave. *)
Fixpoint alpn_after_walk (exts : list Extension)
    (alpn : option (list string)) : option (list string) :=
  match exts with
  | [] => alpn
  | e :: rest =>
      alpn_after_walk rest
        (if ext_type e =? 0 then alpn
         else if ext_type e =? 16 then Some (alpn_protocols e)
         else alpn)
  end.

(** The complaints of the walk, in order. *)
Definition walk_warnings (exts : list Extension) : list (LogMsg * Level) :=
  List.map (fun e => (UnknownServerNameIndication (server_names e), error))
    (List.filter sni_warned exts).

(** Every server-name extension has an entry. *)
Definition server_names_present (exts : list Extension) : Prop :=
  forall e, e ∈ exts -> ext_type e = 0 -> server_names e <> [].

(** The world once the extensions [exts] were walked from [w]. *)
Definition after_walk (exts : list Extension) (w : World) : World :=
  mkWorld (sni_after_walk exts (client_sni w))
    (alpn_after_walk exts (client_alpn_protocols w)) (_client_tls w)
    (_server_tls w) (_sni_from_server_change w) (server_conn w)
    (client_conn w) (log_of w ++ walk_warnings exts) (ctx_calls w).

(** The ALPN protocols offered to the server: the client's, less the
    deprecated variants; none if the client offered none. *)
Definition advertised_alpn (w : World) : option (list string) :=
  match client_alpn_protocols w with
  | Some (p :: ps) =>
      Some (List.filter (fun x => negb (deprecated_http2_variant x))
              (p :: ps))
  | _ => None
  end.

(** The ways the reassembler ends. *)
Definition reassembler_outcome (o : Outcome bytes) : Prop :=
  match o with
  | Return _ => True
  | Raise e => is_ProtocolException e = true \/ e = StructError
  | OutOfFuel => False
  end.

Definition reassembler_result (w : World) (r : Outcome bytes * World)
    : Prop :=
  reassembler_outcome (fst r) /\ snd r = w.

Ltac run_server :=
  unfold _establish_tls_with_server, bind, attempt, log, get, ret, raise,
    on_server_conn; cbn.

(** What [w'] has in common with [w] when only the extracted SNI and ALPN
    values and the log may differ. *)
Definition only_extraction_differs (w w' : World) : Prop :=
  _client_tls w' = _client_tls w /\
  _server_tls w' = _server_tls w /\
  _sni_from_server_change w' = _sni_from_server_change w /\
  server_conn w' = server_conn w /\
  client_conn w' = client_conn w /\
  ctx_calls w' = ctx_calls w /\
  exists entries, log_of w' = log_of w ++ entries.

(** The lines [__alpn_select_callback] logs, one for each choice it made. *)
Definition alpn_lines (choices : list string) : list (LogMsg * Level) :=
  List.map (fun choice => (AlpnForClient choice, debug)) choices.

(** ** SNI resolution *)

(** C4 (amended): [sni_for_server_connection] is none under [ForceNone],
    whatever SNI the client sent; it is the override name under
    [Explicit name] when [name] is not the empty string, whatever SNI the
    client sent; under [Unset], and under [Explicit] of the empty string, it
    is the client's SNI, or none if the client sent none. *)
Theorem sni_for_server_connection_cases (w : World) :
  (_sni_from_server_change w = ForceNone ->
   sni_for_server_connection w = None) /\
  (forall name, _sni_from_server_change w = Explicit name -> name <> "" ->
   sni_for_server_connection w = Some name) /\
  (_sni_from_server_change w = Unset \/
   _sni_from_server_change w = Explicit "" ->
   sni_for_server_connection w = client_sni w).
Proof.
  unfold sni_for_server_connection.
  split; [|split].
  - intros ->. reflexivity.
  - intros name -> Hne. unfold str_truthy.
    destruct (String.eqb_spec name "") as [->|_]; [contradiction|reflexivity].
  - intros [-> | ->]; reflexivity.
Qed.

(** ** ALPN selection *)

Lemma py_in_true (x : option string) (options : list string) :
  py_in x options = true <-> exists p, x = Some p /\ p ∈ options.
Proof.
  unfold py_in. destruct x as [p|].
  - rewrite bool_decide_eq_true. split.
    + intros H. exists p. auto.
    + intros (q & [= ->] & H). exact H.
  - split; [discriminate | intros (q & [=] & _)].
Qed.

(** C5: for a non-empty list of offered protocols the callback returns the
    protocol negotiated with the server if that is among the options;
    otherwise [http/1.1] if that is among them; otherwise the first option.
    It logs its choice and changes nothing else. *)
Theorem alpn_select_callback_choice (conn_ : PyObject)
    (options : list string) (w : World) :
  options <> [] ->
  exists choice,
    __alpn_select_callback conn_ options w
    = (Return choice, snd (log (AlpnForClient choice) debug w)) /\
    (forall p, alpn_for_client_connection w = Some p -> p ∈ options ->
       choice = p) /\
    ((forall p, alpn_for_client_connection w = Some p -> p ∉ options) ->
     ALPN_PROTO_HTTP1 ∈ options -> choice = ALPN_PROTO_HTTP1) /\
    ((forall p, alpn_for_client_connection w = Some p -> p ∉ options) ->
     ALPN_PROTO_HTTP1 ∉ options -> head options = Some choice).
Proof.
  intros Hne. unfold __alpn_select_callback, bind, get, ret.
  destruct (py_in (alpn_for_client_connection w) options) eqn:Hin.
  - apply py_in_true in Hin as (p & Hp & Hpin). rewrite Hp.
    exists p. split; [reflexivity|]. split; [|split].
    + intros q [= ->] _. reflexivity.
    + intros Hno. destruct (Hno p eq_refl Hpin).
    + intros Hno. destruct (Hno p eq_refl Hpin).
  - assert (Hno : forall p, alpn_for_client_connection w = Some p ->
                            p ∉ options).
    { intros p Hp Hpin.
      assert (py_in (alpn_for_client_connection w) options = true)
        by (apply py_in_true; eauto).
      congruence. }
    destruct (bool_decide (ALPN_PROTO_HTTP1 ∈ options)) eqn:Hd.
    + apply bool_decide_eq_true in Hd.
      exists ALPN_PROTO_HTTP1. split; [reflexivity|]. split; [|split].
      * intros p Hp Hpin. destruct (Hno p Hp Hpin).
      * reflexivity.
      * intros _ Hnd. destruct (Hnd Hd).
    + apply bool_decide_eq_false in Hd.
      destruct options as [|o os]; [congruence|].
      exists o. split; [reflexivity|]. split; [|split].
      * intros p Hp Hpin. destruct (Hno p Hp Hpin).
      * intros _ Hd'. destruct (Hd Hd').
      * reflexivity.
Qed.

(** ** Destination override *)

Lemma ctx_call_run (c : CtxCall)
    (f : ServerConn -> option PyExc * ServerConn) (w : World) :
  ctx_call c f w
  = (outcome_of (fst (f (server_conn w))),
     after_ctx_call w c (snd (f (server_conn w)))).
Proof.
  unfold ctx_call, bind, record_ctx_call, on_server_conn, after_ctx_call.
  cbn. destruct (f (server_conn w)) as [[e|] sc]; reflexivity.
Qed.

(** C9 (amended): a call of [set_server] with [depth == 1] and a
    [server_tls] that is not [None] hands only the address to the context
    ([set_server(address, None, None, 1)]) and then sets the layer's own SNI
    override and server-TLS flag; every other call, with another depth or
    with [server_tls] left [None], is handed to the context with all its
    arguments as they came and leaves the layer's attributes alone. *)
Theorem set_server_cases (address : Address) (server_tls : option bool)
    (sni : SniOverride) (depth : Z) (w : World) :
  (forall tls, depth = 1 -> server_tls = Some tls ->
     fst (ctx_set_server address None Unset 1 (server_conn w)) = None ->
     set_server address server_tls sni depth w
     = (Return tt,
        with_override
          (after_ctx_call w (CtxSetServer address None Unset 1)
             (snd (ctx_set_server address None Unset 1 (server_conn w))))
          tls sni)) /\
  (depth <> 1 \/ server_tls = None ->
     set_server address server_tls sni depth w
     = (outcome_of
          (fst (ctx_set_server address server_tls sni depth (server_conn w))),
        after_ctx_call w (CtxSetServer address server_tls sni depth)
          (snd (ctx_set_server address server_tls sni depth
                  (server_conn w))))).
Proof.
  split.
  - intros tls -> -> Hok. unfold set_server. cbn.
    unfold bind at 1. rewrite ctx_call_run, Hok. reflexivity.
  - intros H. unfold set_server.
    destruct (depth =? 1) eqn:Hd, server_tls as [tls|];
      try apply ctx_call_run.
    apply Z.eqb_eq in Hd. destruct H as [H|H]; [contradiction|discriminate].
Qed.

(** ** Establishing TLS with the server *)

Lemma establish_tls_with_server_ctx_calls (w : World) :
  ctx_calls (snd (_establish_tls_with_server w)) = ctx_calls w.
Proof.
  run_server.
  destruct (establish_ssl _ _ _ _ _ _ _ _ _ _) as [[e|] sc]; cbn.
  - destruct e; cbn; try reflexivity.
    destruct (ssl_verification_error sc); reflexivity.
  - destruct (ssl_verification_error sc); reflexivity.
Qed.

(** C8: when [establish_ssl] returns and the server connection reports a
    verification error, [_establish_tls_with_server] logs the failure with
    its depth and error code, logs that it goes on, and returns normally. *)
Theorem verification_error_is_logged_and_ignored (w : World)
    (sc : ServerConn) (err : VerifyErr) :
  establish_ssl (clientcerts config) (sni_for_server_connection w)
    (openssl_method_server config) (openssl_options_server config)
    (openssl_verification_mode_server config)
    (openssl_trusted_cadir_server config)
    (openssl_trusted_ca_server config) (ciphers_server config)
    (advertised_alpn w) (server_conn w) = (None, sc) ->
  ssl_verification_error sc = Some err ->
  _establish_tls_with_server w
  = (Return tt,
     mkWorld (client_sni w) (client_alpn_protocols w) (_client_tls w)
       (_server_tls w) (_sni_from_server_change w) sc (client_conn w)
       (log_of w ++
        [(EstablishTlsWithServer, debug);
         (TlsVerificationFailed (ve_depth err) (ve_errno err), error);
         (IgnoringServerVerificationError, error);
         (AlpnSelectedByServer (alpn_proto_negotiated sc), debug)])
       (ctx_calls w)).
Proof.
  intros Hssl Herr. unfold advertised_alpn in Hssl.
  run_server.
  unfold sni_for_server_connection in *. cbn in Hssl |- *.
  rewrite Hssl. cbn. rewrite Herr. cbn.
  unfold alpn_for_client_connection. cbn.
  repeat rewrite <- app_assoc. reflexivity.
Qed.

(** ** connect *)

(** C10: [connect] calls the context's [connect] exactly when there is no
    server connection yet; when there is one, it establishes TLS with the
    server if server TLS is enabled and not yet established, and otherwise
    leaves the world as it is.  When there is none, an exception of the
    context's [connect] is passed on and no handshake is tried; otherwise
    TLS with the server is established on the new connection if it is
    enabled and the connection has none yet, and nothing else happens. *)
Theorem connect_cases (w : World) :
  ctx_calls (snd (connect w))
  = (ctx_calls w ++
     (if sc_connected (server_conn w) then [] else [CtxConnect]))%list /\
  (sc_connected (server_conn w) = true ->
   connect w
   = if _server_tls w && negb (tls_established (server_conn w))
     then _establish_tls_with_server w
     else (Return tt, w)) /\
  (sc_connected (server_conn w) = false ->
   (forall e, fst (ctx_connect (server_conn w)) = Some e ->
      connect w
      = (Raise e,
         after_ctx_call w CtxConnect (snd (ctx_connect (server_conn w))))) /\
   (fst (ctx_connect (server_conn w)) = None ->
      connect w
      = if _server_tls w
           && negb (tls_established (snd (ctx_connect (server_conn w))))
        then _establish_tls_with_server
               (after_ctx_call w CtxConnect
                  (snd (ctx_connect (server_conn w))))
        else (Return tt,
              after_ctx_call w CtxConnect
                (snd (ctx_connect (server_conn w)))))).
Proof.
  unfold connect, bind, get, ret.
  destruct (sc_connected (server_conn w)) eqn:Hc; cbv beta iota delta [negb].
  - split; [|split; [|discriminate]].
    + destruct (_server_tls w && _).
      * rewrite establish_tls_with_server_ctx_calls, app_nil_r. reflexivity.
      * cbn [snd]. rewrite app_nil_r. reflexivity.
    + intros _. destruct (_server_tls w && _); reflexivity.
  - rewrite ctx_call_run.
    destruct (ctx_connect (server_conn w)) as [[e|] sc];
      cbn [fst snd outcome_of].
    + split; [reflexivity|]. split; [discriminate|]. intros _.
      split; [intros e' [= <-]; reflexivity|discriminate].
    + cbn [_server_tls server_conn after_ctx_call].
      split; [|split; [discriminate|]].
      * destruct (_server_tls w && _).
        -- rewrite establish_tls_with_server_ctx_calls. reflexivity.
        -- reflexivity.
      * intros _. split; [discriminate|]. intros _.
        destruct (_server_tls w && _); reflexivity.
Qed.

(** ** Certificate resolution *)

Lemma find_cert_reads_only (w : World) : snd (_find_cert w) = w.
Proof.
  unfold _find_cert, bind, get, ret, lift, raise.
  destruct (sc_connected (server_conn w) && tls_established (server_conn w)
            && negb (no_upstream_cert config)); cbn.
  - destruct (cn (cert (server_conn w))) as [c|]; cbn.
    + destruct (str_truthy c); cbn.
      * destruct (encode_idna c) as [e|h]; cbn; [reflexivity|].
        destruct (get_cert _ _); reflexivity.
      * destruct (get_cert _ _); reflexivity.
    + destruct (get_cert _ _); reflexivity.
  - destruct (get_cert _ _); reflexivity.
Qed.

Lemma sans_add_client_sni (o : option string) (X : gset string) :
  match o with
  | Some s => if str_truthy s then X ∪ {[s]} else X
  | None => X
  end = X ∪ opt_name_set o.
Proof.
  destruct o as [s|]; cbn; [destruct (str_truthy s)|]; set_solver.
Qed.

Lemma sans_add_override (o : SniOverride) (X : gset string) :
  match o with
  | Explicit s => if str_truthy s then X ∪ {[s]} else X
  | _ => X
  end = X ∪ opt_name_set (override_name o).
Proof.
  destruct o as [| |s]; cbn; [| |destruct (str_truthy s)]; set_solver.
Qed.

(** C6: [_find_cert] asks the certificate store for [(host, sans)], where
    [host] is the server's host, or the IDNA form of the upstream
    certificate's common name when the upstream certificate is mirrored and
    has one, and [sans] holds the upstream alternative names (when mirrored),
    the dialled host (when the common name took its place), the client's SNI
    and the SNI override (each when there is one, the empty string counting
    as none), with [host] itself taken out. *)
Theorem find_cert_host_and_sans (w : World) (host : string) :
  match upstream_cn w with
  | Some c => encode_idna c = inr host
  | None => host = addr_host (address (server_conn w))
  end ->
  _find_cert w = lift (get_cert host (claimed_sans w host)) w.
Proof.
  assert (Hcong : forall X Y : gset string,
             X = Y -> lift (get_cert host X) w = lift (get_cert host Y) w)
    by (intros X Y ->; reflexivity).
  unfold upstream_cn, claimed_sans, upstream_cn, mirrors_upstream.
  unfold _find_cert, bind, get, ret.
  destruct (sc_connected (server_conn w) && tls_established (server_conn w)
            && negb (no_upstream_cert config)).
  - destruct (cn (cert (server_conn w))) as [c|].
    + destruct (str_truthy c).
      * intros ->. cbn. rewrite sans_add_client_sni, sans_add_override.
        apply Hcong. set_solver.
      * intros ->. cbn. rewrite sans_add_client_sni, sans_add_override.
        apply Hcong. set_solver.
    + intros ->. cbn. rewrite sans_add_client_sni, sans_add_override.
      apply Hcong. set_solver.
  - intros ->. cbn. rewrite sans_add_client_sni, sans_add_override.
    apply Hcong. set_solver.
Qed.

(** When the common name has no IDNA form, the codec's error is what
    [_find_cert] raises. *)
Lemma find_cert_idna_error (w : World) (c : string) (e : PyExc) :
  upstream_cn w = Some c -> encode_idna c = inl e ->
  _find_cert w = (Raise e, w).
Proof.
  unfold upstream_cn, mirrors_upstream, _find_cert, bind, get, ret.
  destruct (sc_connected (server_conn w) && tls_established (server_conn w)
            && negb (no_upstream_cert config)); [|discriminate].
  destruct (cn (cert (server_conn w))) as [c'|]; [|discriminate].
  destruct (str_truthy c') eqn:Ht; [|discriminate].
  intros [= ->] He. cbn. rewrite He. reflexivity.
Qed.

(** What is in the set. *)
Lemma elem_of_claimed_sans (w : World) (host x : string) :
  x ∈ claimed_sans w host <->
  x <> host /\
  ((mirrors_upstream w = true /\ x ∈ altnames (cert (server_conn w))) \/
   (is_Some (upstream_cn w) /\ x = addr_host (address (server_conn w))) \/
   (client_sni w = Some x /\ x <> "") \/
   (_sni_from_server_change w = Explicit x /\ x <> "")).
Proof using config.
  clear get_cert encode_idna.
  assert (Hopt : forall o : option string,
             x ∈ opt_name_set o <-> o = Some x /\ x <> "").
  { intros [s|]; cbn.
    - unfold str_truthy. destruct (String.eqb_spec s ""); cbn.
      + split; [set_solver|]. intros [[= ->] H]. contradiction.
      + split; [|intros [[= ->] _]; set_solver].
        intros H. assert (x = s) by set_solver. subst. auto.
    - split; [set_solver|]. intros [[=] _]. }
  assert (Hov : forall o, override_name o = Some x <-> o = Explicit x).
  { intros [| |s]; cbn; split; congruence. }
  unfold claimed_sans.
  rewrite elem_of_difference, !elem_of_union, !Hopt, Hov, elem_of_singleton.
  destruct (mirrors_upstream w), (upstream_cn w) as [c|];
    rewrite ?elem_of_list_to_set, ?elem_of_singleton, ?elem_of_empty;
    unfold is_Some; naive_solver.
Qed.

Lemma find_cert_no_loop (w : World) : fst (_find_cert w) <> OutOfFuel.
Proof.
  unfold _find_cert, bind, get, ret, lift, raise.
  destruct (sc_connected (server_conn w) && tls_established (server_conn w)
            && negb (no_upstream_cert config)); cbn.
  - destruct (cn (cert (server_conn w))) as [c|]; cbn.
    + destruct (str_truthy c); cbn.
      * destruct (encode_idna c) as [e|h]; cbn; [discriminate|].
        destruct (get_cert _ _); discriminate.
      * destruct (get_cert _ _); discriminate.
    + destruct (get_cert _ _); discriminate.
  - destruct (get_cert _ _); discriminate.
Qed.

(** ** The server-first ordering *)

(** The callback either chooses and logs its choice, or raises and leaves
    the layer as it was. *)
Lemma alpn_select_callback_run (conn_ : PyObject) (options : list string)
    (w : World) :
  (exists choice,
     __alpn_select_callback conn_ options w
     = (Return choice, snd (log (AlpnForClient choice) debug w))) \/
  (exists e, __alpn_select_callback conn_ options w = (Raise e, w)).
Proof.
  unfold __alpn_select_callback, bind, get, ret, raise.
  destruct (py_in (alpn_for_client_connection w) options).
  - destruct (alpn_for_client_connection w); eauto.
  - destruct (bool_decide (ALPN_PROTO_HTTP1 ∈ options)); [eauto|].
    destruct options; eauto.
Qed.

(** Whatever the engine does with the callback, the handshake ends, and it
    changes the client connection and the log only: the log grows by the
    lines of the callback. *)
Lemma run_handshake_frame (hs : Handshake) (w : World) :
  exists o cc choices,
    o <> OutOfFuel /\
    run_handshake __alpn_select_callback hs w
    = (o,
       mkWorld (client_sni w) (client_alpn_protocols w) (_client_tls w)
         (_server_tls w) (_sni_from_server_change w) (server_conn w) cc
         (log_of w ++ alpn_lines choices) (ctx_calls w)).
Proof.
  revert w. induction hs as [r cc|conn_ options resume IH]; intros w.
  - exists (match r with Some e => Raise e | None => Return tt end), cc, [].
    split; [destruct r; discriminate|].
    cbn [run_handshake alpn_lines List.map]. rewrite app_nil_r.
    unfold bind, set_client_conn, raise, ret. destruct r; reflexivity.
  - cbn [run_handshake]. unfold bind at 1. unfold attempt.
    destruct (alpn_select_callback_run conn_ options w)
      as [[choice ->]|[e ->]].
    + destruct (IH (inr choice) (snd (log (AlpnForClient choice) debug w)))
        as (o & cc & choices & Ho & ->).
      exists o, cc, (choice :: choices). split; [exact Ho|].
      cbn [log snd client_sni client_alpn_protocols _client_tls _server_tls
           _sni_from_server_change server_conn log_of ctx_calls alpn_lines
           List.map].
      rewrite <- app_assoc. reflexivity.
    + destruct (IH (inl e) w) as (o & cc & choices & Ho & ->).
      exists o, cc, choices. split; [exact Ho|reflexivity].
Qed.

Lemma establish_tls_with_client_run (w : World) :
  exists o cc choices,
    o <> OutOfFuel /\
    _establish_tls_with_client w
    = (o,
       mkWorld (client_sni w) (client_alpn_protocols w) (_client_tls w)
         (_server_tls w) (_sni_from_server_change w) (server_conn w) cc
         (log_of w ++ (EstablishTlsWithClient, debug) :: alpn_lines choices)
         (ctx_calls w)).
Proof.
  unfold _establish_tls_with_client. unfold bind at 1. unfold log at 1.
  unfold bind at 1.
  match goal with
  | |- context [_find_cert ?w1] =>
      pose proof (find_cert_reads_only w1) as Hf;
      pose proof (find_cert_no_loop w1) as Hn;
      destruct (_find_cert w1) as [o w2]
  end.
  cbn [fst snd] in Hf, Hn. subst w2.
  destruct o as [[[c k] ch]|e|].
  - unfold bind at 1. unfold attempt, on_client_handshake.
    unfold bind at 1. unfold get.
    match goal with
    | |- context [run_handshake _ ?hs ?w1] =>
        destruct (run_handshake_frame hs w1) as (o & cc & choices & Ho & ->)
    end.
    cbn [client_sni client_alpn_protocols _client_tls _server_tls
         _sni_from_server_change server_conn log_of ctx_calls].
    rewrite <- app_assoc. cbn [app].
    destruct o as [[]|e|]; [| |contradiction].
    + exists (Return tt), cc, choices. split; [discriminate|reflexivity].
    + destruct (is_NetLibError e) as [i|].
      * exists (Raise (ProtocolException (CannotEstablishTlsWithClient i))),
          cc, choices.
        split; [discriminate|reflexivity].
      * exists (Raise e), cc, choices. split; [discriminate|reflexivity].
  - exists (Raise e), (client_conn w), []. split; [discriminate|reflexivity].
  - contradiction.
Qed.

Lemma alpn_lines_are_no_attempts (choices : list string) :
  List.filter is_client_attempt (alpn_lines choices) = [].
Proof. induction choices as [|c cs IH]; [reflexivity|exact IH]. Qed.

Lemma establish_tls_with_client_runs (w : World) :
  fst (_establish_tls_with_client w) <> OutOfFuel /\
  client_attempts (snd (_establish_tls_with_client w))
  = S (client_attempts w).
Proof.
  destruct (establish_tls_with_client_run w) as (o & cc & choices & Ho & ->).
  split; [exact Ho|].
  unfold client_attempts. cbn [snd log_of].
  rewrite List.filter_app, length_app. cbn [List.filter is_client_attempt fst].
  rewrite alpn_lines_are_no_attempts. cbn. lia.
Qed.

(** C1: on the server-first path, when establishing TLS with the server
    raises an error [E], the layer sets out exactly once to establish TLS
    with the client, drops whatever that attempt raises, and raises [E]. *)
Theorem server_first_failure_reraises_original (w w0 w1 : World)
    (E : PyExc) :
  ctx_call CtxConnect ctx_connect w = (Return tt, w0) ->
  _establish_tls_with_server w0 = (Raise E, w1) ->
  is_Exception E = true ->
  _establish_tls_with_client_and_server w
  = (Raise E, snd (_establish_tls_with_client w1)) /\
  client_attempts (snd (_establish_tls_with_client_and_server w))
  = S (client_attempts w1).
Proof.
  intros Hc Hs HE.
  assert (Hrun : _establish_tls_with_client_and_server w
                 = (Raise E, snd (_establish_tls_with_client w1))).
  { unfold _establish_tls_with_client_and_server.
    unfold bind at 1. rewrite Hc.
    unfold bind at 1. unfold attempt at 1. rewrite Hs.
    unfold bind at 1. rewrite HE.
    unfold bind at 1. unfold attempt.
    destruct (establish_tls_with_client_runs w1) as [Hn _].
    destruct (_establish_tls_with_client w1) as [[u|e|] w2];
      cbn [fst snd] in *; [reflexivity|reflexivity|contradiction]. }
  split; [exact Hrun|].
  rewrite Hrun. cbn [snd].
  apply establish_tls_with_client_runs.
Qed.

(** An exception that is no [Exception] passes the handler: no attempt on
    the client follows it. *)
Lemma server_first_non_error_passes (w w0 w1 : World) (E : PyExc) :
  ctx_call CtxConnect ctx_connect w = (Return tt, w0) ->
  _establish_tls_with_server w0 = (Raise E, w1) ->
  is_Exception E = false ->
  _establish_tls_with_client_and_server w = (Raise E, w1).
Proof.
  intros Hc Hs HE. unfold _establish_tls_with_client_and_server.
  unfold bind at 1. rewrite Hc.
  unfold bind at 1. unfold attempt at 1. rewrite Hs.
  unfold bind at 1. rewrite HE. reflexivity.
Qed.

(** When TLS with the server is established, the client's turn follows. *)
Lemma server_first_success (w w0 w1 : World) :
  ctx_call CtxConnect ctx_connect w = (Return tt, w0) ->
  _establish_tls_with_server w0 = (Return tt, w1) ->
  _establish_tls_with_client_and_server w = _establish_tls_with_client w1.
Proof.
  intros Hc Hs. unfold _establish_tls_with_client_and_server.
  unfold bind at 1. rewrite Hc.
  unfold bind at 1. unfold attempt at 1. rewrite Hs.
  unfold bind at 1. reflexivity.
Qed.

(** ** The walk over the extensions *)

Lemma world_eta (w : World) :
  mkWorld (client_sni w) (client_alpn_protocols w) (_client_tls w)
    (_server_tls w) (_sni_from_server_change w) (server_conn w)
    (client_conn w) (log_of w) (ctx_calls w) = w.
Proof. destruct w; reflexivity. Qed.

Lemma len_two_or_more {A : Type} (x y : A) (l : list A) :
  (len (x :: y :: l) =? 1) = false.
Proof. apply Z.eqb_neq. unfold len. cbn [length]. lia. Qed.

Lemma visit_extensions_run (exts : list Extension) (w : World) :
  server_names_present exts ->
  visit_extensions exts w = (Return tt, after_walk exts w).
Proof.
  revert w. induction exts as [|e rest IH]; intros w Hpresent.
  - cbn. unfold ret, after_walk, walk_warnings. cbn.
    rewrite app_nil_r, world_eta. reflexivity.
  - assert (Hrest : server_names_present rest).
    { intros e' He'. apply Hpresent. right. exact He'. }
    assert (He : ext_type e = 0 -> server_names e <> []).
    { apply Hpresent. left. }
    cbn [visit_extensions]. unfold bind at 1. unfold visit_extension.
    unfold after_walk, walk_warnings, sni_warned.
    cbn [sni_after_walk alpn_after_walk List.filter].
    destruct (ext_type e =? 0) eqn:Ht.
    + apply Z.eqb_eq in Ht. specialize (He Ht).
      destruct (server_names e) as [|sn [|sn' names]] eqn:Hn;
        [congruence| |].
      * change (len [sn] =? 1) with true.
        destruct (sn_type sn =? 0); cbn [negb orb andb];
          unfold bind, log, ret, set_client_sni; cbv beta iota;
          rewrite IH by exact Hrest; unfold after_walk, walk_warnings;
          cbn [client_sni client_alpn_protocols _client_tls _server_tls
               _sni_from_server_change server_conn client_conn log_of
               ctx_calls List.map];
          rewrite <- ?app_assoc, ?Hn; reflexivity.
      * rewrite len_two_or_more. cbn [negb orb andb].
        unfold bind, log, ret, set_client_sni; cbv beta iota.
        rewrite IH by exact Hrest. unfold after_walk, walk_warnings.
        cbn [client_sni client_alpn_protocols _client_tls _server_tls
             _sni_from_server_change server_conn client_conn log_of
             ctx_calls List.map].
        rewrite <- ?app_assoc, ?Hn. reflexivity.
    + cbn [andb]. destruct (ext_type e =? 16).
      * unfold set_client_alpn_protocols. rewrite IH by exact Hrest.
        reflexivity.
      * unfold ret. rewrite IH by exact Hrest. reflexivity.
Qed.

(** A server-name extension without entries stops the walk: the index is out
    of range. *)
Lemma visit_extension_no_entries (e : Extension) (w : World) :
  ext_type e = 0 -> server_names e = [] ->
  fst (visit_extension e w) = Raise IndexError.
Proof.
  intros Ht Hn. unfold visit_extension. rewrite Ht, Hn. reflexivity.
Qed.

(** ** The record reassembler *)

Lemma len_app {A : Type} (l k : list A) : len (l ++ k) = len l + len k.
Proof. unfold len. rewrite length_app. lia. Qed.

Lemma len_nonneg {A : Type} (l : list A) : 0 <= len l.
Proof. unfold len. lia. Qed.

Lemma slice_window {A : Type} (pre mid post : list A) (o n : Z) :
  o = len pre -> n = len mid ->
  slice_from o (slice_to (o + n) (pre ++ mid ++ post)) = mid.
Proof.
  intros -> ->. unfold slice_from, slice_to, len.
  replace (Z.to_nat (Z.of_nat (length pre) + Z.of_nat (length mid)))
    with (length pre + length mid)%nat by lia.
  rewrite Nat2Z.id, take_app_add, take_app_length.
  apply drop_app_length.
Qed.

Lemma len_slice_window {A : Type} (s : list A) (o n : Z) :
  0 <= o -> 0 <= n ->
  len (slice_from o (slice_to (o + n) s)) = n <-> o + n <= len s \/ n = 0 /\ len s <= o + n.
Proof.
  intros Ho Hn. unfold slice_from, slice_to, len.
  rewrite length_drop, length_take. lia.
Qed.

Lemma record_header_magic (r : TlsRecord) (rest : bytes) :
  record_ok r ->
  is_tls_record_magic (x16 :: x03 :: rec_minor r :: rest) = true.
Proof. intros [Hm _]. unfold is_tls_record_magic. cbn. exact Hm. Qed.

Lemma get_client_hello_loop_step (fuel : nat) (acc pre post : bytes)
    (size : Z) (r : TlsRecord) (w : World) :
  rfile (client_conn w) = (pre ++ encode_record r ++ post)%list ->
  record_ok r ->
  len acc < size ->
  _get_client_hello_loop (S fuel) acc size (len pre) w
  = match unpack_I (x00 :: slice 1 4 (acc ++ rec_body r)) with
    | inr n =>
        _get_client_hello_loop fuel (acc ++ rec_body r) (n + 4)
          (len (pre ++ encode_record r)) w
    | inl e => (Raise e, w)
    end.
Proof.
  intros Hs Hok Hlt.
  pose proof Hok as [_ Hlen].
  cbn [_get_client_hello_loop].
  apply Z.ltb_lt in Hlt. rewrite Hlt.
  unfold bind at 1. unfold peek at 1. cbv beta iota zeta.
  rewrite Hs.
  assert (Hhdr : slice_from (len pre)
                   (slice_to (len pre + 5)
                      (pre ++ encode_record r ++ post))
                 = [x16; x03; rec_minor r; rec_len_hi r; rec_len_lo r]).
  { unfold encode_record. rewrite <- (app_assoc _ (rec_body r) post).
    apply slice_window; reflexivity. }
  rewrite Hhdr.
  rewrite (record_header_magic r _ Hok).
  change (len [x16; x03; rec_minor r; rec_len_hi r; rec_len_lo r] =? 5)
    with true.
  cbn [negb orb].
  change (slice_from 3 [x16; x03; rec_minor r; rec_len_hi r; rec_len_lo r])
    with [rec_len_hi r; rec_len_lo r].
  cbn [unpack_H lift]. unfold bind at 1. unfold ret at 1.
  unfold bind at 1. unfold peek at 1. cbv beta iota.
  rewrite Hs, Hlen.
  assert (Hbody : slice_from (len pre + 5)
                    (slice_to (len pre + (len (rec_body r) + 5))
                       (pre ++ encode_record r ++ post))
                  = rec_body r).
  { replace (pre ++ encode_record r ++ post)%list
      with ((pre ++ [x16; x03; rec_minor r; rec_len_hi r; rec_len_lo r])
            ++ rec_body r ++ post)%list
      by (unfold encode_record; rewrite <- !app_assoc; reflexivity).
    replace (len pre + (len (rec_body r) + 5))
      with ((len pre + 5) + len (rec_body r)) by lia.
    apply slice_window; [|reflexivity].
    rewrite len_app. reflexivity. }
  rewrite Hbody.
  replace (len (rec_body r) =? len (rec_body r) + 5 - 5) with true
    by (symmetry; apply Z.eqb_eq; lia).
  cbn [negb].
  destruct (unpack_I _) as [e|n]; cbn [lift].
  - reflexivity.
  - unfold bind at 1. unfold ret at 1.
    replace (len pre + (len (rec_body r) + 5))
      with (len (pre ++ encode_record r)); [reflexivity|].
    rewrite len_app. unfold encode_record. rewrite len_app.
    change (len [x16; x03; rec_minor r; rec_len_hi r; rec_len_lo r])
      with 5. lia.
Qed.

Lemma byte_val_nonneg (b : byte) : 0 <= byte_val b.
Proof. unfold byte_val. lia. Qed.

Lemma unpack_H_cases (s : bytes) :
  match unpack_H s with
  | inl e => e = StructError
  | inr n => 0 <= n
  end.
Proof.
  destruct s as [|b1 [|b0 [|]]]; cbn; try reflexivity.
  pose proof (byte_val_nonneg b1). pose proof (byte_val_nonneg b0). lia.
Qed.

Lemma unpack_I_cases (s : bytes) :
  match unpack_I s with
  | inl e => e = StructError
  | inr n => 0 <= n
  end.
Proof.
  destruct s as [|b3 [|b2 [|b1 [|b0 [|]]]]]; cbn; try reflexivity.
  pose proof (byte_val_nonneg b3). pose proof (byte_val_nonneg b2).
  pose proof (byte_val_nonneg b1). pose proof (byte_val_nonneg b0). lia.
Qed.

(** Once four bytes are there, the announced size no longer changes. *)
Lemma unpack_size_header (t l2 l1 l0 : byte) (tail more : bytes) :
  unpack_I (x00 :: slice 1 4 ((t :: l2 :: l1 :: l0 :: tail) ++ more))
  = inr ((byte_val l2 * 256 + byte_val l1) * 256 + byte_val l0).
Proof. reflexivity. Qed.

Lemma encode_records_length (rs : list TlsRecord) :
  (5 * length rs <= length (encode_records rs))%nat.
Proof.
  induction rs as [|r rs IH]; cbn; [lia|].
  fold (encode_records rs). rewrite length_app. lia.
Qed.

Lemma len_zero_nil {A : Type} (l : list A) : len l = 0 -> l = [].
Proof. destruct l; [reflexivity|]. unfold len. cbn. lia. Qed.

Lemma get_client_hello_loop_done (fuel : nat) (acc : bytes)
    (size offset : Z) (w : World) :
  size <= len acc ->
  _get_client_hello_loop fuel acc size offset w = (Return acc, w).
Proof.
  intros H. apply Z.ltb_ge in H.
  destruct fuel; cbn [_get_client_hello_loop]; rewrite H; reflexivity.
Qed.

Lemma get_client_hello_loop_collects (rs : list TlsRecord) :
  forall (fuel : nat) (pre post : bytes) (t l2 l1 l0 : byte) (tail : bytes)
         (w : World),
    rfile (client_conn w) = (pre ++ encode_records rs ++ post)%list ->
    Forall record_ok rs ->
    len ((t :: l2 :: l1 :: l0 :: tail) ++ bodies rs)
    = (byte_val l2 * 256 + byte_val l1) * 256 + byte_val l0 + 4 ->
    (length rs <= fuel)%nat ->
    _get_client_hello_loop fuel (t :: l2 :: l1 :: l0 :: tail)
      ((byte_val l2 * 256 + byte_val l1) * 256 + byte_val l0 + 4)
      (len pre) w
    = (Return ((t :: l2 :: l1 :: l0 :: tail) ++ bodies rs), w).
Proof.
  induction rs as [|r rs IH];
    intros fuel pre post t l2 l1 l0 tail w Hs Hok Hsize Hfuel.
  - unfold bodies in *. cbn [List.map concat] in *.
    rewrite app_nil_r in *. apply get_client_hello_loop_done. lia.
  - set (acc := t :: l2 :: l1 :: l0 :: tail) in *.
    set (size := (byte_val l2 * 256 + byte_val l1) * 256 + byte_val l0 + 4)
      in *.
    destruct (Z.lt_ge_cases (len acc) size) as [Hlt|Hge].
    + destruct fuel as [|fuel]; [cbn in Hfuel; lia|].
      inversion Hok as [|r' rs' Hr Hrs]; subst r' rs'.
      assert (Hs' : rfile (client_conn w)
                    = (pre ++ encode_record r
                       ++ (encode_records rs ++ post))%list).
      { rewrite Hs. unfold encode_records. cbn [List.map concat].
        rewrite <- app_assoc. reflexivity. }
      rewrite (get_client_hello_loop_step fuel acc pre _ size r w Hs' Hr Hlt).
      subst acc. rewrite unpack_size_header.
      fold size.
      change ((t :: l2 :: l1 :: l0 :: tail) ++ rec_body r)%list
        with (t :: l2 :: l1 :: l0 :: (tail ++ rec_body r))%list.
      unfold size.
      rewrite (IH fuel (pre ++ encode_record r)%list post t l2 l1 l0
                 (tail ++ rec_body r)%list w).
      * unfold bodies. cbn [List.map concat app].
        rewrite <- ?app_assoc. reflexivity.
      * rewrite Hs'. rewrite <- ?app_assoc. reflexivity.
      * exact Hrs.
      * unfold size in Hsize. rewrite <- Hsize.
        unfold bodies. cbn [List.map concat app].
        rewrite <- ?app_assoc. reflexivity.
      * cbn in Hfuel. lia.
    + assert (Hnil : bodies (r :: rs) = []).
      { apply len_zero_nil. rewrite len_app in Hsize.
        pose proof (len_nonneg (bodies (r :: rs))). lia. }
      rewrite Hnil, app_nil_r. apply get_client_hello_loop_done. exact Hge.
Qed.

(** The reassembler on a ClientHello that is split over the records [rs], the
    first of which holds the handshake header: it returns the handshake
    message, header included, whatever the number of records, and leaves the
    stream as it was. *)
Lemma get_client_hello_reassembles (r : TlsRecord) (rs : list TlsRecord)
    (post : bytes) (w : World) :
  rfile (client_conn w) = (encode_records (r :: rs) ++ post)%list ->
  Forall record_ok (r :: rs) ->
  handshake_ok (bodies (r :: rs)) ->
  4 <= len (rec_body r) ->
  _get_client_hello w = (Return (bodies (r :: rs)), w).
Proof.
  intros Hs Hok Hhs H4.
  inversion Hok as [|r' rs' Hr Hrs]; subst r' rs'.
  destruct (rec_body r) as [|t [|l2 [|l1 [|l0 tail]]]] eqn:Hbody;
    try (unfold len in H4; cbn in H4; lia).
  unfold _get_client_hello. unfold bind at 1. unfold get at 1.
  assert (Hs' : rfile (client_conn w)
                = ([] ++ encode_record r ++ (encode_records rs ++ post))%list).
  { rewrite Hs. unfold encode_records. cbn [List.map concat].
    rewrite <- app_assoc. reflexivity. }
  change 0 with (len (@nil byte)).
  rewrite (get_client_hello_loop_step _ [] [] _ 1 r w Hs' Hr)
    by (unfold len; cbn; lia).
  cbn [app]. rewrite Hbody.
  change (unpack_I (x00 :: slice 1 4 (t :: l2 :: l1 :: l0 :: tail)))
    with (@inr PyExc Z
            ((byte_val l2 * 256 + byte_val l1) * 256 + byte_val l0)).
  assert (Hb : bodies (r :: rs)
               = ((t :: l2 :: l1 :: l0 :: tail) ++ bodies rs)%list).
  { unfold bodies. cbn [List.map concat]. rewrite Hbody. reflexivity. }
  rewrite Hb.
  change (len (encode_record r)) with (len ([] ++ encode_record r)).
  apply (get_client_hello_loop_collects rs _ _ post).
  - rewrite Hs'. rewrite <- !app_assoc. reflexivity.
  - exact Hrs.
  - rewrite Hb in Hhs. cbn [handshake_ok app] in Hhs.
    unfold len in *. cbn [app length] in *. lia.
  - rewrite Hs. pose proof (encode_records_length (r :: rs)).
    rewrite length_app. cbn [length] in *. lia.
Qed.

(** Splitting the same ClientHello in other ways gives the same bytes. *)
Lemma get_client_hello_split_independent (r r' : TlsRecord)
    (rs rs' : list TlsRecord) (post post' : bytes) (w w' : World) :
  rfile (client_conn w) = (encode_records (r :: rs) ++ post)%list ->
  rfile (client_conn w') = (encode_records (r' :: rs') ++ post')%list ->
  Forall record_ok (r :: rs) -> Forall record_ok (r' :: rs') ->
  bodies (r :: rs) = bodies (r' :: rs') ->
  handshake_ok (bodies (r :: rs)) ->
  4 <= len (rec_body r) -> 4 <= len (rec_body r') ->
  fst (_get_client_hello w) = fst (_get_client_hello w').
Proof.
  intros Hs Hs' Hok Hok' Hb Hhs H4 H4'.
  rewrite (get_client_hello_reassembles r rs post w) by assumption.
  rewrite (get_client_hello_reassembles r' rs' post' w'); try assumption.
  - cbn [fst]. rewrite Hb. reflexivity.
  - rewrite <- Hb. exact Hhs.
Qed.

(** The reassembler on any stream at all: it comes to an end, it leaves the
    world as it found it, and what it raises is a [ProtocolException] or a
    [struct.error]. *)
Lemma get_client_hello_loop_total (fuel : nat) :
  forall (acc : bytes) (size offset : Z) (w : World),
    0 <= offset <= len (rfile (client_conn w)) ->
    len (rfile (client_conn w)) - offset < 5 * Z.of_nat fuel ->
    reassembler_result w (_get_client_hello_loop fuel acc size offset w).
Proof.
  induction fuel as [|fuel IH]; intros acc size offset w Ho Hf; [lia|].
  cbn [_get_client_hello_loop].
  destruct (len acc <? size); [|split; cbn; auto].
  unfold bind at 1. unfold peek at 1. cbv beta iota zeta.
  set (s := rfile (client_conn w)) in *.
  set (hdr := slice_from offset (slice_to (offset + 5) s)).
  destruct (negb (is_tls_record_magic hdr) || negb (len hdr =? 5)) eqn:Hh.
  { split; cbn; auto. }
  apply orb_false_elim in Hh as [_ Hh].
  apply negb_false_iff, Z.eqb_eq in Hh.
  apply len_slice_window in Hh; [|lia|lia].
  pose proof (unpack_H_cases (slice_from 3 hdr)) as Hn.
  destruct (unpack_H (slice_from 3 hdr)) as [e|n]; cbn [lift].
  { subst e. split; cbn; auto. }
  unfold bind at 1. unfold ret at 1. unfold bind at 1. unfold peek at 1.
  cbv beta iota. fold s.
  replace (offset + (n + 5)) with ((offset + 5) + n) by lia.
  set (body := slice_from (offset + 5) (slice_to (offset + 5 + n) s)).
  destruct (negb (len body =? n + 5 - 5)) eqn:Hb.
  { split; cbn; auto. }
  apply negb_false_iff, Z.eqb_eq in Hb.
  replace (n + 5 - 5) with n in Hb by lia.
  apply len_slice_window in Hb; [|lia|lia].
  pose proof (unpack_I_cases (x00 :: slice 1 4 (acc ++ body))) as Hi.
  destruct (unpack_I (x00 :: slice 1 4 (acc ++ body))) as [e|n'];
    cbn [lift].
  { subst e. split; cbn; auto. }
  unfold bind at 1. unfold ret at 1.
  apply IH; fold s; lia.
Qed.

Lemma get_client_hello_total (w : World) :
  reassembler_outcome (fst (_get_client_hello w))
  /\ snd (_get_client_hello w) = w.
Proof.
  change (reassembler_result w (_get_client_hello w)).
  unfold _get_client_hello. unfold bind at 1. unfold get.
  apply get_client_hello_loop_total.
  - pose proof (len_nonneg (rfile (client_conn w))). lia.
  - unfold len. lia.
Qed.

(** ** Parsing the ClientHello *)

(** A [ProtocolException] of the reassembler is logged; nothing is
    extracted and nothing is raised. *)
Lemma parse_client_hello_swallows_protocol_exception (w : World)
    (msg : ProtoMsg) :
  fst (_get_client_hello w) = Raise (ProtocolException msg) ->
  _parse_client_hello w
  = log (CannotParseClientHello (ProtocolException msg)) error w.
Proof.
  intros H. destruct (get_client_hello_total w) as [_ Hw].
  unfold _parse_client_hello. unfold bind at 1. unfold attempt at 1.
  destruct (_get_client_hello w) as [o w1]. cbn [fst snd] in *.
  subst o w1. reflexivity.
Qed.

(** So is a [ConstructError] of the parser. *)
Lemma parse_client_hello_swallows_construct_error (w : World)
    (hello : bytes) (info : string) :
  fst (_get_client_hello w) = Return hello ->
  ClientHello_parse (slice_from 4 hello) = inl (ConstructError info) ->
  _parse_client_hello w
  = (log (CannotParseClientHello (ConstructError info)) error ;;;
     log (RawClientHello (slice_from 4 hello)) debug) w.
Proof.
  intros H Hp. destruct (get_client_hello_total w) as [_ Hw].
  unfold _parse_client_hello. unfold bind at 1. unfold attempt at 1.
  destruct (_get_client_hello w) as [o w1]. cbn [fst snd] in *.
  subst o w1. rewrite Hp. reflexivity.
Qed.

(** The [struct.error] of the size computation is no [ProtocolException]:
    it leaves [_parse_client_hello] as it came. *)
Lemma parse_client_hello_struct_error_escapes (w : World) :
  fst (_get_client_hello w) = Raise StructError ->
  _parse_client_hello w = (Raise StructError, w).
Proof.
  intros H. destruct (get_client_hello_total w) as [_ Hw].
  unfold _parse_client_hello. unfold bind at 1. unfold attempt at 1.
  destruct (_get_client_hello w) as [o w1]. cbn [fst snd] in *.
  subst o w1. reflexivity.
Qed.

(** In both swallowed cases [client_sni] and [client_alpn_protocols] stay
    as they were. *)
Lemma parse_client_hello_failure_extracts_nothing (w : World)
    (msg : ProtoMsg) :
  fst (_get_client_hello w) = Raise (ProtocolException msg) ->
  fst (_parse_client_hello w) = Return tt /\
  client_sni (snd (_parse_client_hello w)) = client_sni w /\
  client_alpn_protocols (snd (_parse_client_hello w))
  = client_alpn_protocols w.
Proof.
  intros H. rewrite (parse_client_hello_swallows_protocol_exception w msg H).
  cbn. auto.
Qed.

(** C2 (amended): for a ClientHello that was reassembled and parsed and in
    which every server-name extension has at least one entry,
    [_parse_client_hello] returns normally; [client_sni] is the name of the
    first entry of the last server-name extension, whatever the type of that
    entry; and a complaint is logged for every server-name extension that
    has more than one entry or whose entry is not of type 0. *)
Theorem parse_client_hello_takes_first_server_name (w : World)
    (hello : bytes) (client_hello : ClientHello) :
  fst (_get_client_hello w) = Return hello ->
  ClientHello_parse (slice_from 4 hello) = inr client_hello ->
  server_names_present (extensions client_hello) ->
  exists w',
    _parse_client_hello w = (Return tt, w') /\
    client_sni w' = sni_after_walk (extensions client_hello) (client_sni w) /\
    log_of w'
    = log_of w ++ walk_warnings (extensions client_hello)
      ++ [(ParsedClientHello (client_sni w') (client_alpn_protocols w'),
           debug)].
Proof.
  intros H Hp Hpresent. destruct (get_client_hello_total w) as [_ Hw].
  unfold _parse_client_hello. unfold bind at 1. unfold attempt at 1.
  destruct (_get_client_hello w) as [o w1]. cbn [fst snd] in *.
  subst o w1. rewrite Hp.
  unfold bind at 1. rewrite (visit_extensions_run _ w Hpresent).
  unfold bind, get, log. cbv beta iota.
  eexists. split; [reflexivity|]. cbn. split; [reflexivity|].
  rewrite <- app_assoc. reflexivity.
Qed.

(** A server-name extension without entries: the walk raises [IndexError],
    and so does [_parse_client_hello]. *)
Lemma parse_client_hello_no_server_name_entries (w : World)
    (hello : bytes) (client_hello : ClientHello) (e : Extension)
    (rest : list Extension) :
  fst (_get_client_hello w) = Return hello ->
  ClientHello_parse (slice_from 4 hello) = inr client_hello ->
  extensions client_hello = e :: rest ->
  ext_type e = 0 -> server_names e = [] ->
  fst (_parse_client_hello w) = Raise IndexError.
Proof.
  intros H Hp Hext Ht Hn. destruct (get_client_hello_total w) as [_ Hw].
  unfold _parse_client_hello. unfold bind at 1. unfold attempt at 1.
  destruct (_get_client_hello w) as [o w1]. cbn [fst snd] in *.
  subst o w1. rewrite Hp, Hext.
  unfold bind at 1. cbn [visit_extensions]. unfold bind at 1.
  unfold visit_extension. rewrite Ht, Hn. reflexivity.
Qed.

(** C3: a record with an empty body passes every check of the reassembler;
    the size computation that follows raises [struct.error], which
    [_parse_client_hello] does not catch. *)
Theorem parse_client_hello_lets_struct_error_escape :
  _parse_client_hello
    (Samples.world_of None Unset false Samples.sc_fresh
       Samples.stream_empty_record)
  = (Raise StructError,
     Samples.world_of None Unset false Samples.sc_fresh
       Samples.stream_empty_record).
Proof. apply parse_client_hello_struct_error_escapes. reflexivity. Qed.

(** C7: the same ClientHello in one record and in two records of four and
    two bytes is reassembled to the same bytes; in two records of one and
    five bytes the reassembler raises [struct.error]. *)
Theorem get_client_hello_short_first_record :
  _get_client_hello
    (Samples.world_of None Unset false Samples.sc_fresh
       Samples.stream_one_record)
  = (Return Samples.hello_msg,
     Samples.world_of None Unset false Samples.sc_fresh
       Samples.stream_one_record) /\
  _get_client_hello
    (Samples.world_of None Unset false Samples.sc_fresh
       Samples.stream_two_records)
  = (Return Samples.hello_msg,
     Samples.world_of None Unset false Samples.sc_fresh
       Samples.stream_two_records) /\
  _get_client_hello
    (Samples.world_of None Unset false Samples.sc_fresh
       Samples.stream_short_first_record)
  = (Raise StructError,
     Samples.world_of None Unset false Samples.sc_fresh
       Samples.stream_short_first_record).
Proof. repeat split; reflexivity. Qed.

(** Bytes that are no TLS record: the reassembler raises its
    [ProtocolException], and [_parse_client_hello] logs it and returns with
    nothing extracted. *)
Lemma parse_client_hello_no_tls :
  _parse_client_hello
    (Samples.world_of None Unset false Samples.sc_fresh Samples.stream_http)
  = log (CannotParseClientHello
           (ProtocolException (ExpectedTlsRecord Samples.stream_http)))
      error
      (Samples.world_of None Unset false Samples.sc_fresh
         Samples.stream_http).
Proof.
  apply parse_client_hello_swallows_protocol_exception. reflexivity.
Qed.

(** ** Further properties of the reassembler *)

Lemma minor_version_ok (v : byte) :
  (Byte.eqb v x00 || Byte.eqb v x01 || Byte.eqb v x02 || Byte.eqb v x03)
  = true <-> byte_val v <= 3.
Proof.
  destruct v; vm_compute; split; intros H; try reflexivity;
    try discriminate; exfalso; apply H; reflexivity.
Qed.

(** X1: [is_tls_record_magic] accepts exactly the byte strings that start
    with 0x16, 0x03 and a third byte of at most 3; anything shorter than
    three bytes is refused, and bytes after the third play no part. *)
Theorem tls_record_magic_iff (d : bytes) :
  is_tls_record_magic d = true <->
  exists v rest, d = x16 :: x03 :: v :: rest /\ byte_val v <= 3.
Proof.
  unfold is_tls_record_magic, slice_to. change (Z.to_nat 3) with 3%nat.
  destruct d as [|d0 [|d1 [|d2 rest]]]; cbn [firstn];
    try (split; [discriminate | intros (v & r & [=] & _)]).
  rewrite take_0, !andb_true_iff, minor_version_ok. split.
  - intros [[H0 H1] H2].
    apply Byte.byte_dec_bl in H0, H1. subst. eauto.
  - intros (v & r & [= -> -> -> ->] & Hv). auto.
Qed.

Lemma tls_record_magic_helper (v : byte) (rest : bytes) :
  byte_val v <= 3 -> is_tls_record_magic (x16 :: x03 :: v :: rest) = true.
Proof.
  intros Hv. unfold is_tls_record_magic, slice_to.
  change (Z.to_nat 3) with 3%nat. cbn [firstn]. rewrite take_0.
  change (Byte.eqb x16 x16) with true. change (Byte.eqb x03 x03) with true.
  cbn [andb]. apply minor_version_ok. exact Hv.
Qed.

Lemma magic_of_prefix (s : bytes) :
  is_tls_record_magic (slice_to 5 s) = is_tls_record_magic s.
Proof.
  unfold is_tls_record_magic, slice_to.
  change (Z.to_nat 3) with 3%nat. change (Z.to_nat 5) with 5%nat.
  rewrite take_take. reflexivity.
Qed.

(** X2: on every stream the reassembler comes to an end, hands the world
    back as it found it (no byte of the stream is consumed), and raises
    nothing but a [ProtocolException] or a [struct.error]. *)
Theorem get_client_hello_ends_without_reading (w : World) :
  exists o,
    _get_client_hello w = (o, w) /\
    match o with
    | Return _ => True
    | Raise e => (exists msg, e = ProtocolException msg) \/ e = StructError
    | OutOfFuel => False
    end.
Proof.
  destruct (get_client_hello_total w) as [Ho Hw].
  destruct (_get_client_hello w) as [o w']. cbn [fst snd] in *. subst w'.
  exists o. split; [reflexivity|].
  destruct o as [h|e|]; cbn in Ho; auto.
  destruct Ho as [Hp| ->]; [left|right; reflexivity].
  destruct e; try discriminate. eauto.
Qed.

(** X3: a handshake message [m] that arrives as the bodies of the records
    [r :: rs], of which the first holds at least the four header bytes, is
    returned as [m], header included: neither the number of records, nor
    empty records among the later ones, nor bytes that follow the last
    record change the result, and the stream is left as it was. *)
Theorem client_hello_reassembled_from_records (m : bytes) (r : TlsRecord)
    (rs : list TlsRecord) (post : bytes) (w : World) :
  rfile (client_conn w) = encode_records (r :: rs) ++ post ->
  Forall record_ok (r :: rs) ->
  bodies (r :: rs) = m ->
  handshake_ok m ->
  4 <= len (rec_body r) ->
  _get_client_hello w = (Return m, w).
Proof.
  intros Hs Hok <- Hm H4. apply (get_client_hello_reassembles r rs post);
    assumption.
Qed.

(** X4: when the unread bytes do not start with the record magic, or are
    fewer than five, the reassembler raises its [ProtocolException] with the
    bytes it saw (at most five). *)
Theorem get_client_hello_rejects_non_tls (w : World) :
  is_tls_record_magic (rfile (client_conn w)) = false \/
  len (rfile (client_conn w)) < 5 ->
  _get_client_hello w
  = (Raise (ProtocolException
              (ExpectedTlsRecord (slice_to 5 (rfile (client_conn w))))),
     w).
Proof.
  intros H. unfold _get_client_hello. unfold bind at 1. unfold get.
  cbn [_get_client_hello_loop].
  change (len [] <? 1) with true. cbv beta iota.
  unfold bind at 1. unfold peek at 1. cbv beta iota zeta.
  change (slice_from 0 (slice_to (0 + 5) (rfile (client_conn w))))
    with (slice_to 5 (rfile (client_conn w))).
  rewrite magic_of_prefix.
  replace (negb (is_tls_record_magic (rfile (client_conn w)))
           || negb (len (slice_to 5 (rfile (client_conn w))) =? 5))
    with true; [reflexivity|].
  symmetry. apply orb_true_iff. destruct H as [-> | H]; [left; reflexivity|].
  right. apply negb_true_iff, Z.eqb_neq.
  unfold slice_to, len in *. rewrite length_take. lia.
Qed.

(** X5: a first record whose header is in order and announces more bytes
    than the stream holds makes the reassembler raise its
    [ProtocolException] for an unexpected end, with the part of the body
    that is there. *)
Theorem get_client_hello_truncated_record (w : World) (v hi lo : byte)
    (partial : bytes) :
  rfile (client_conn w) = x16 :: x03 :: v :: hi :: lo :: partial ->
  byte_val v <= 3 ->
  len partial < byte_val hi * 256 + byte_val lo ->
  _get_client_hello w
  = (Raise (ProtocolException (UnexpectedEOF partial)), w).
Proof.
  intros Hs Hv Hlen. unfold _get_client_hello. unfold bind at 1. unfold get.
  cbn [_get_client_hello_loop].
  change (len [] <? 1) with true. cbv beta iota.
  unfold bind at 1. unfold peek at 1. cbv beta iota zeta.
  rewrite Hs.
  change (slice_from 0 (slice_to (0 + 5)
                          (x16 :: x03 :: v :: hi :: lo :: partial)))
    with [x16; x03; v; hi; lo].
  replace (is_tls_record_magic [x16; x03; v; hi; lo]) with true
    by (symmetry; apply tls_record_magic_helper; exact Hv).
  change (len [x16; x03; v; hi; lo] =? 5) with true. cbn [negb orb].
  change (slice_from 3 [x16; x03; v; hi; lo]) with [hi; lo].
  cbn [unpack_H lift]. unfold bind at 1. unfold ret at 1.
  unfold bind at 1. unfold peek at 1. cbv beta iota.
  rewrite Hs.
  assert (Hbody : slice_from (0 + 5)
                    (slice_to (0 + (byte_val hi * 256 + byte_val lo + 5))
                       (x16 :: x03 :: v :: hi :: lo :: partial))
                  = partial).
  { unfold slice_from, slice_to. change (Z.to_nat (0 + 5)) with 5%nat.
    rewrite take_ge; [reflexivity|].
    unfold len in Hlen. cbn [length]. lia. }
  rewrite Hbody.
  replace (len partial =? byte_val hi * 256 + byte_val lo + 5 - 5)
    with false by (symmetry; apply Z.eqb_neq; lia).
  reflexivity.
Qed.

(** ** Further properties of the parsing step *)

Lemma only_extraction_differs_refl (w : World) : only_extraction_differs w w.
Proof.
  unfold only_extraction_differs. repeat split.
  exists []. rewrite app_nil_r. reflexivity.
Qed.

Lemma only_extraction_differs_trans (w1 w2 w3 : World) :
  only_extraction_differs w1 w2 -> only_extraction_differs w2 w3 ->
  only_extraction_differs w1 w3.
Proof.
  unfold only_extraction_differs.
  intros (A1 & A2 & A3 & A4 & A5 & A6 & l1 & A7)
         (B1 & B2 & B3 & B4 & B5 & B6 & l2 & B7).
  repeat split; try congruence.
  exists (l1 ++ l2). rewrite B7, A7, app_assoc. reflexivity.
Qed.

Lemma only_extraction_differs_log (m : LogMsg) (l : Level) (w : World) :
  only_extraction_differs w (snd (log m l w)).
Proof.
  unfold only_extraction_differs, log. cbn. repeat split. eauto.
Qed.

Lemma visit_extension_frame (e : Extension) (w : World) :
  only_extraction_differs w (snd (visit_extension e w)).
Proof.
  unfold visit_extension.
  destruct (ext_type e =? 0).
  - unfold bind, log, ret, set_client_sni, raise.
    destruct (negb (len (server_names e) =? 1) || _);
      destruct (server_names e); cbn;
      unfold only_extraction_differs; cbn; repeat split;
      first [ exists []; rewrite app_nil_r; reflexivity | eauto ].
  - destruct (ext_type e =? 16).
    + unfold set_client_alpn_protocols, only_extraction_differs. cbn.
      repeat split. exists []. rewrite app_nil_r. reflexivity.
    + apply only_extraction_differs_refl.
Qed.

Lemma visit_extensions_frame (exts : list Extension) (w : World) :
  only_extraction_differs w (snd (visit_extensions exts w)).
Proof.
  revert w. induction exts as [|e rest IH]; intros w.
  - apply only_extraction_differs_refl.
  - cbn [visit_extensions]. unfold bind.
    pose proof (visit_extension_frame e w) as He.
    destruct (visit_extension e w) as [[u|x|] w1]; cbn [snd] in *;
      [|exact He|exact He].
    eapply only_extraction_differs_trans; [exact He|apply IH].
Qed.

Lemma parse_client_hello_frame (w : World) :
  only_extraction_differs w (snd (_parse_client_hello w)).
Proof.
  destruct (get_client_hello_total w) as [_ Hw].
  unfold _parse_client_hello. unfold bind at 1. unfold attempt at 1.
  destruct (_get_client_hello w) as [[hello|e|] w1]; cbn [snd] in Hw;
    subst w1; [| |apply only_extraction_differs_refl].
  - destruct (ClientHello_parse (slice_from 4 hello)) as [e|client_hello].
    + destruct (is_ConstructError e);
        [|apply only_extraction_differs_refl].
      unfold bind, log, only_extraction_differs. cbn. repeat split.
      eexists. rewrite <- app_assoc. reflexivity.
    + unfold bind at 1.
      pose proof (visit_extensions_frame (extensions client_hello) w) as Hv.
      destruct (visit_extensions (extensions client_hello) w)
        as [[u|x|] w1]; cbn [snd] in *; [|exact Hv|exact Hv].
      unfold bind, get.
      eapply only_extraction_differs_trans; [exact Hv|].
      apply only_extraction_differs_log.
  - destruct (is_ProtocolException e);
      [apply only_extraction_differs_log
      |apply only_extraction_differs_refl].
Qed.

(** X6: whatever the client sent and whatever the parser makes of it,
    [_parse_client_hello] leaves the client connection (the unread bytes
    among it), the server connection, the TLS flags, the SNI override and
    the calls on the context as they were; the log only grows. *)
Theorem parse_client_hello_touches_only_extraction (w : World) :
  let w' := snd (_parse_client_hello w) in
  client_conn w' = client_conn w /\
  server_conn w' = server_conn w /\
  _client_tls w' = _client_tls w /\
  _server_tls w' = _server_tls w /\
  _sni_from_server_change w' = _sni_from_server_change w /\
  ctx_calls w' = ctx_calls w /\
  exists entries, log_of w' = log_of w ++ entries.
Proof.
  destruct (parse_client_hello_frame w) as (A1 & A2 & A3 & A4 & A5 & A6 & A7).
  cbv zeta. auto 10.
Qed.

(** X7: when the parser raises on the reassembled handshake, a
    [ConstructError] is logged (with the raw bytes at debug level) and
    [_parse_client_hello] returns with nothing extracted; any other
    exception of the parser leaves [_parse_client_hello] as it came. *)
Theorem parser_error_logged_or_raised (w : World) (hello : bytes)
    (e : PyExc) :
  fst (_get_client_hello w) = Return hello ->
  ClientHello_parse (slice_from 4 hello) = inl e ->
  _parse_client_hello w
  = if is_ConstructError e
    then (Return tt,
          mkWorld (client_sni w) (client_alpn_protocols w) (_client_tls w)
            (_server_tls w) (_sni_from_server_change w) (server_conn w)
            (client_conn w)
            (log_of w ++
             [(CannotParseClientHello e, error);
              (RawClientHello (slice_from 4 hello), debug)])
            (ctx_calls w))
    else (Raise e, w).
Proof.
  intros H Hp. destruct (get_client_hello_total w) as [_ Hw].
  unfold _parse_client_hello. unfold bind at 1. unfold attempt at 1.
  destruct (_get_client_hello w) as [o w1]. cbn [fst snd] in *.
  subst o w1. rewrite Hp.
  destruct (is_ConstructError e); [|reflexivity].
  unfold bind, log. cbn. rewrite <- app_assoc. reflexivity.
Qed.

Lemma alpn_after_walk_none (post : list Extension)
    (a : option (list string)) :
  (forall e, e ∈ post -> ext_type e <> 16) -> alpn_after_walk post a = a.
Proof.
  revert a. induction post as [|e post IH]; intros a H; [reflexivity|].
  cbn [alpn_after_walk].
  assert (He : ext_type e <> 16) by (apply H; left).
  apply Z.eqb_neq in He. rewrite He.
  destruct (ext_type e =? 0); apply IH; intros e' He'; apply H; right;
    exact He'.
Qed.

Lemma alpn_after_walk_last (pre post : list Extension) (e : Extension)
    (a : option (list string)) :
  ext_type e = 16 -> (forall e', e' ∈ post -> ext_type e' <> 16) ->
  alpn_after_walk (pre ++ e :: post) a = Some (alpn_protocols e).
Proof.
  intros He Hpost. revert a. induction pre as [|p pre IH]; intros a.
  - cbn [app alpn_after_walk]. rewrite He. cbn.
    apply alpn_after_walk_none. exact Hpost.
  - cbn [app alpn_after_walk]. apply IH.
Qed.

Lemma parse_client_hello_run (w : World) (hello : bytes)
    (client_hello : ClientHello) :
  fst (_get_client_hello w) = Return hello ->
  ClientHello_parse (slice_from 4 hello) = inr client_hello ->
  server_names_present (extensions client_hello) ->
  _parse_client_hello w
  = log (ParsedClientHello
           (sni_after_walk (extensions client_hello) (client_sni w))
           (alpn_after_walk (extensions client_hello)
              (client_alpn_protocols w)))
      debug (after_walk (extensions client_hello) w).
Proof.
  intros H Hp Hpresent. destruct (get_client_hello_total w) as [_ Hw].
  unfold _parse_client_hello. unfold bind at 1. unfold attempt at 1.
  destruct (_get_client_hello w) as [o w1]. cbn [fst snd] in *.
  subst o w1. rewrite Hp.
  unfold bind at 1. rewrite (visit_extensions_run _ w Hpresent).
  reflexivity.
Qed.

(** X8: after a ClientHello is parsed, [client_alpn_protocols] is the
    protocol list of its last ALPN extension (type 0x10), in the order the
    client gave. *)
Theorem alpn_protocols_kept_in_order (w : World) (hello : bytes)
    (client_hello : ClientHello) (pre post : list Extension)
    (e : Extension) :
  fst (_get_client_hello w) = Return hello ->
  ClientHello_parse (slice_from 4 hello) = inr client_hello ->
  server_names_present (extensions client_hello) ->
  extensions client_hello = pre ++ e :: post ->
  ext_type e = 16 ->
  (forall e', e' ∈ post -> ext_type e' <> 16) ->
  client_alpn_protocols (snd (_parse_client_hello w))
  = Some (alpn_protocols e).
Proof.
  intros H Hp Hpresent Hexts He Hpost.
  rewrite (parse_client_hello_run w hello client_hello H Hp Hpresent).
  cbn. rewrite Hexts. apply alpn_after_walk_last; assumption.
Qed.

(** ** Further properties of the handshake with the server *)

(** X9: a [NetLibError] of [establish_ssl] that is no certificate error is
    raised again as a [ProtocolException] that carries the server's
    address, the SNI that was used and the cause; nothing but the opening
    line is logged. *)
Theorem server_handshake_error_is_wrapped (w : World) (sc : ServerConn)
    (info : string) :
  establish_ssl (clientcerts config) (sni_for_server_connection w)
    (openssl_method_server config) (openssl_options_server config)
    (openssl_verification_mode_server config)
    (openssl_trusted_cadir_server config)
    (openssl_trusted_ca_server config) (ciphers_server config)
    (advertised_alpn w) (server_conn w) = (Some (NetLibError info), sc) ->
  _establish_tls_with_server w
  = (Raise (ProtocolException
              (CannotEstablishTlsWithServer
                 (addr_host (address sc), addr_port (address sc))
                 (sni_for_server_connection w) info)),
     mkWorld (client_sni w) (client_alpn_protocols w) (_client_tls w)
       (_server_tls w) (_sni_from_server_change w) sc (client_conn w)
       (log_of w ++ [(EstablishTlsWithServer, debug)]) (ctx_calls w)).
Proof.
  intros Hssl. unfold advertised_alpn in Hssl.
  run_server.
  unfold sni_for_server_connection in *. cbn in Hssl |- *.
  rewrite Hssl. reflexivity.
Qed.

(** X10: a [NetLibInvalidCertificateError] of [establish_ssl] is fatal: the
    verification error is logged with its depth and code, the abort is
    logged, and a [ProtocolException] is raised. When the connection holds
    no verification error at that point, reading its fields fails and a
    [TypeError] is raised in place of the [ProtocolException]. *)
Theorem invalid_certificate_aborts (w : World) (sc : ServerConn)
    (info : string) :
  establish_ssl (clientcerts config) (sni_for_server_connection w)
    (openssl_method_server config) (openssl_options_server config)
    (openssl_verification_mode_server config)
    (openssl_trusted_cadir_server config)
    (openssl_trusted_ca_server config) (ciphers_server config)
    (advertised_alpn w) (server_conn w)
  = (Some (NetLibInvalidCertificateError info), sc) ->
  _establish_tls_with_server w
  = match ssl_verification_error sc with
    | Some err =>
        (Raise (ProtocolException
                  (CannotEstablishTlsWithServer
                     (addr_host (address sc), addr_port (address sc))
                     (sni_for_server_connection w) info)),
         mkWorld (client_sni w) (client_alpn_protocols w) (_client_tls w)
           (_server_tls w) (_sni_from_server_change w) sc (client_conn w)
           (log_of w ++
            [(EstablishTlsWithServer, debug);
             (TlsVerificationFailed (ve_depth err) (ve_errno err), error);
             (AbortingConnectionAttempt, error)])
           (ctx_calls w))
    | None =>
        (Raise TypeError,
         mkWorld (client_sni w) (client_alpn_protocols w) (_client_tls w)
           (_server_tls w) (_sni_from_server_change w) sc (client_conn w)
           (log_of w ++ [(EstablishTlsWithServer, debug)]) (ctx_calls w))
    end.
Proof.
  intros Hssl. unfold advertised_alpn in Hssl.
  run_server.
  unfold sni_for_server_connection in *. cbn in Hssl |- *.
  rewrite Hssl. cbn.
  destruct (ssl_verification_error sc) as [err|]; cbn; [|reflexivity].
  rewrite <- !app_assoc. reflexivity.
Qed.

(** X11: an exception of [establish_ssl] that is no [NetLibError] leaves
    [_establish_tls_with_server] as it is, not wrapped. *)
Theorem other_server_exception_passes (w : World) (sc : ServerConn)
    (e : PyExc) :
  establish_ssl (clientcerts config) (sni_for_server_connection w)
    (openssl_method_server config) (openssl_options_server config)
    (openssl_verification_mode_server config)
    (openssl_trusted_cadir_server config)
    (openssl_trusted_ca_server config) (ciphers_server config)
    (advertised_alpn w) (server_conn w) = (Some e, sc) ->
  is_NetLibError e = None ->
  _establish_tls_with_server w
  = (Raise e,
     mkWorld (client_sni w) (client_alpn_protocols w) (_client_tls w)
       (_server_tls w) (_sni_from_server_change w) sc (client_conn w)
       (log_of w ++ [(EstablishTlsWithServer, debug)]) (ctx_calls w)).
Proof.
  intros Hssl He. unfold advertised_alpn in Hssl.
  run_server.
  unfold sni_for_server_connection in *. cbn in Hssl |- *.
  rewrite Hssl. destruct e; cbn in He |- *; try discriminate; reflexivity.
Qed.

(** X12: whatever [establish_ssl] does, [_establish_tls_with_server] leaves
    the extracted SNI and ALPN values, the TLS flags, the SNI override, the
    client connection and the calls on the context as they were, and keeps
    what was logged before. *)
Theorem server_handshake_touches_only_server_conn (w : World) :
  let w' := snd (_establish_tls_with_server w) in
  client_sni w' = client_sni w /\
  client_alpn_protocols w' = client_alpn_protocols w /\
  _client_tls w' = _client_tls w /\
  _server_tls w' = _server_tls w /\
  _sni_from_server_change w' = _sni_from_server_change w /\
  client_conn w' = client_conn w /\
  ctx_calls w' = ctx_calls w /\
  exists entries,
    log_of w' = log_of w ++ (EstablishTlsWithServer, debug) :: entries.
Proof.
  cbv zeta. run_server.
  destruct (establish_ssl _ _ _ _ _ _ _ _ _ _) as [[e|] sc]; cbn.
  - destruct e; cbn; try (repeat split; exists []; reflexivity).
    destruct (ssl_verification_error sc); cbn; repeat split;
      eexists; rewrite <- ?app_assoc; reflexivity.
  - destruct (ssl_verification_error sc); cbn; repeat split;
      eexists; rewrite <- ?app_assoc; reflexivity.
Qed.

(** ** Further properties of the handshake with the client *)

Lemma find_cert_ignores_log (m : LogMsg) (l : Level) (w : World) :
  fst (_find_cert (snd (log m l w))) = fst (_find_cert w).
Proof.
  unfold _find_cert, bind, get, ret, lift, raise, log. cbn.
  destruct (sc_connected (server_conn w) && tls_established (server_conn w)
            && negb (no_upstream_cert config)); cbn.
  - destruct (cn (cert (server_conn w))) as [c|]; cbn.
    + destruct (str_truthy c); cbn.
      * destruct (encode_idna c) as [e|h]; cbn; [reflexivity|].
        destruct (get_cert _ _); reflexivity.
      * destruct (get_cert _ _); reflexivity.
    + destruct (get_cert _ _); reflexivity.
  - destruct (get_cert _ _); reflexivity.
Qed.

Lemma find_cert_after_log (m : LogMsg) (l : Level) (w : World) :
  _find_cert (snd (log m l w)) = (fst (_find_cert w), snd (log m l w)).
Proof.
  rewrite <- (find_cert_ignores_log m l w).
  rewrite <- (find_cert_reads_only (snd (log m l w))) at 3.
  destruct (_find_cert (snd (log m l w))). reflexivity.
Qed.

(** X13: when the certificate cannot be had (the store or the IDNA codec
    raises), [_establish_tls_with_client] raises that exception as it is
    and never starts the handshake: the client connection is untouched. *)
Theorem client_handshake_needs_certificate (w : World) (e : PyExc) :
  fst (_find_cert w) = Raise e ->
  _establish_tls_with_client w
  = (Raise e,
     mkWorld (client_sni w) (client_alpn_protocols w) (_client_tls w)
       (_server_tls w) (_sni_from_server_change w) (server_conn w)
       (client_conn w) (log_of w ++ [(EstablishTlsWithClient, debug)])
       (ctx_calls w)).
Proof.
  intros H. unfold _establish_tls_with_client.
  unfold bind at 1.
  change (log EstablishTlsWithClient debug w)
    with (Return tt, snd (log EstablishTlsWithClient debug w)).
  cbv beta iota. unfold bind at 1.
  rewrite find_cert_after_log, H. reflexivity.
Qed.

(** X14: when the handshake with the client raises, [convert_to_ssl] having
    run with the layer's callback on the layer itself, a [NetLibError] (of
    either class) is raised again as a [ProtocolException] with its cause,
    and any other exception as it is; the layer is left as the handshake
    left it, with the lines the callback logged. *)
Theorem client_handshake_error_is_wrapped (w w' : World)
    (c k ch : PyObject) (e : PyExc) :
  fst (_find_cert w) = Return (c, k, ch) ->
  on_client_handshake
    (convert_to_ssl c k (openssl_method_client config)
       (openssl_options_client config) (ciphers_client config)
       (certstore_dhparams config) ch)
    __alpn_select_callback (snd (log EstablishTlsWithClient debug w))
  = (Raise e, w') ->
  _establish_tls_with_client w
  = (Raise match is_NetLibError e with
           | Some i => ProtocolException (CannotEstablishTlsWithClient i)
           | None => e
           end,
     w').
Proof.
  intros H Hc. unfold _establish_tls_with_client.
  unfold bind at 1.
  change (log EstablishTlsWithClient debug w)
    with (Return tt, snd (log EstablishTlsWithClient debug w)).
  cbv beta iota. unfold bind at 1.
  rewrite find_cert_after_log, H. cbv beta iota.
  unfold bind at 1. unfold attempt. rewrite Hc.
  destruct (is_NetLibError e); reflexivity.
Qed.

Lemma establish_tls_with_client_frame (w : World) :
  let w' := snd (_establish_tls_with_client w) in
  client_sni w' = client_sni w /\
  client_alpn_protocols w' = client_alpn_protocols w /\
  _client_tls w' = _client_tls w /\
  _server_tls w' = _server_tls w /\
  _sni_from_server_change w' = _sni_from_server_change w /\
  server_conn w' = server_conn w /\
  ctx_calls w' = ctx_calls w.
Proof.
  cbv zeta.
  destruct (establish_tls_with_client_run w) as (o & cc & choices & _ & ->).
  cbn. repeat split; reflexivity.
Qed.


(** ** reconnect and set_server, further *)

Lemma reconnect_run (w : World) :
  reconnect w
  = match fst (ctx_reconnect (server_conn w)) with
    | Some e =>
        (Raise e,
         after_ctx_call w CtxReconnect (snd (ctx_reconnect (server_conn w))))
    | None =>
        if _server_tls w
           && negb (tls_established (snd (ctx_reconnect (server_conn w))))
        then _establish_tls_with_server
               (after_ctx_call w CtxReconnect
                  (snd (ctx_reconnect (server_conn w))))
        else (Return tt,
              after_ctx_call w CtxReconnect
                (snd (ctx_reconnect (server_conn w))))
    end.
Proof.
  unfold reconnect. unfold bind at 1. rewrite ctx_call_run.
  destruct (ctx_reconnect (server_conn w)) as [[e|] sc];
    cbn [fst snd outcome_of]; [reflexivity|].
  unfold bind, get. cbn [_server_tls server_conn after_ctx_call].
  destruct (_server_tls w && negb (tls_established sc)); reflexivity.
Qed.

(** X16: [reconnect] always calls the context's [reconnect], once; when
    that raises, the exception is passed on and no handshake is tried;
    otherwise TLS with the server is established if it is enabled and the
    new connection has none yet. *)
Theorem reconnect_cases (w : World) :
  ctx_calls (snd (reconnect w)) = ctx_calls w ++ [CtxReconnect] /\
  (forall e, fst (ctx_reconnect (server_conn w)) = Some e ->
     reconnect w
     = (Raise e,
        after_ctx_call w CtxReconnect
          (snd (ctx_reconnect (server_conn w))))) /\
  (fst (ctx_reconnect (server_conn w)) = None ->
     reconnect w
     = if _server_tls w
          && negb (tls_established (snd (ctx_reconnect (server_conn w))))
       then _establish_tls_with_server
              (after_ctx_call w CtxReconnect
                 (snd (ctx_reconnect (server_conn w))))
       else (Return tt,
             after_ctx_call w CtxReconnect
               (snd (ctx_reconnect (server_conn w))))).
Proof.
  rewrite !reconnect_run.
  destruct (ctx_reconnect (server_conn w)) as [[e|] sc];
    cbn [fst snd].
  - split; [reflexivity|]. split; [intros e' [= <-]; reflexivity|].
    discriminate.
  - split; [|split; [discriminate|reflexivity]].
    destruct (_server_tls w && negb (tls_established sc)).
    + rewrite establish_tls_with_server_ctx_calls. reflexivity.
    + reflexivity.
Qed.

(** X17: when the context refuses the new address at depth 1, [set_server]
    passes the exception on and does not take the override: the layer's
    server-TLS flag and SNI override stay as they were. *)
Theorem set_server_refused_keeps_override (address : Address) (tls : bool)
    (sni : SniOverride) (w : World) (e : PyExc) :
  fst (ctx_set_server address None Unset 1 (server_conn w)) = Some e ->
  set_server address (Some tls) sni 1 w
  = (Raise e,
     after_ctx_call w (CtxSetServer address None Unset 1)
       (snd (ctx_set_server address None Unset 1 (server_conn w)))).
Proof.
  intros H. unfold set_server. cbn.
  unfold bind at 1. rewrite ctx_call_run, H. reflexivity.
Qed.

(** X18: once [set_server] took an override at depth 1, the SNI for the
    server is decided by it: none for [False], the name for a non-empty
    name, and the client's own SNI again for [None] or the empty string,
    whatever override was there before; the client's SNI itself is kept. *)
Theorem sni_after_set_server (address : Address) (tls : bool)
    (sni : SniOverride) (w : World) :
  fst (ctx_set_server address None Unset 1 (server_conn w)) = None ->
  sni_for_server_connection (snd (set_server address (Some tls) sni 1 w))
  = match sni with
    | ForceNone => None
    | Explicit name => if str_truthy name then Some name else client_sni w
    | Unset => client_sni w
    end /\
  _server_tls (snd (set_server address (Some tls) sni 1 w)) = tls /\
  client_sni (snd (set_server address (Some tls) sni 1 w)) = client_sni w.
Proof.
  intros H.
  assert (Hrun : set_server address (Some tls) sni 1 w
                 = (Return tt,
                    with_override
                      (after_ctx_call w (CtxSetServer address None Unset 1)
                         (snd (ctx_set_server address None Unset 1
                                 (server_conn w))))
                      tls sni)).
  { unfold set_server. cbn. unfold bind at 1.
    rewrite ctx_call_run, H. reflexivity. }
  rewrite Hrun. cbn. unfold sni_for_server_connection. cbn.
  destruct sni; auto.
Qed.

(** ** The server-first ordering, further *)

(** X19: when the context cannot connect, the server-first path raises
    that exception and tries no handshake, on either side. *)
Theorem server_first_needs_connection (w : World) (e : PyExc) :
  fst (ctx_connect (server_conn w)) = Some e ->
  _establish_tls_with_client_and_server w
  = (Raise e,
     after_ctx_call w CtxConnect (snd (ctx_connect (server_conn w)))).
Proof.
  intros H. unfold _establish_tls_with_client_and_server.
  unfold bind at 1. rewrite ctx_call_run, H. reflexivity.
Qed.

(** X20: an exception of the server handshake that is no [Exception] (a
    keyboard interrupt) passes the handler: it is raised at once and no
    handshake with the client is attempted. *)
Theorem server_first_interrupt_passes (w w0 w1 : World) (E : PyExc) :
  ctx_call CtxConnect ctx_connect w = (Return tt, w0) ->
  _establish_tls_with_server w0 = (Raise E, w1) ->
  is_Exception E = false ->
  _establish_tls_with_client_and_server w = (Raise E, w1) /\
  client_attempts (snd (_establish_tls_with_client_and_server w))
  = client_attempts w1.
Proof.
  intros Hc Hs HE.
  rewrite (server_first_non_error_passes w w0 w1 E Hc Hs HE).
  split; reflexivity.
Qed.

(** X21: when TLS with the server is established, the handshake with the
    client follows and its outcome is the outcome of the whole: an error of
    the client handshake is raised, not dropped. *)
Theorem server_first_then_client (w w0 w1 w2 : World) (E : PyExc) :
  ctx_call CtxConnect ctx_connect w = (Return tt, w0) ->
  _establish_tls_with_server w0 = (Return tt, w1) ->
  _establish_tls_with_client w1 = (Raise E, w2) ->
  _establish_tls_with_client_and_server w = (Raise E, w2).
Proof.
  intros Hc Hs He.
  rewrite (server_first_success w w0 w1 Hc Hs). exact He.
Qed.

(** ** The layer's entry point *)

(** X22: with client TLS enabled, a [struct.error] of the reassembler ends
    [__call__] at once: no handshake is tried and the next layer is never
    reached. *)
Theorem call_aborted_by_struct_error (w : World) :
  _client_tls w = true ->
  fst (_get_client_hello w) = Raise StructError ->
  __call__ w = (Raise StructError, w).
Proof.
  intros Ht H. unfold __call__. unfold bind at 1. unfold get at 1.
  cbv beta iota zeta. rewrite Ht. unfold bind at 1.
  rewrite (parse_client_hello_struct_error_escapes w H). reflexivity.
Qed.

End TlsLayer.

(** ** Properties that compare collaborators *)

Section Collaborators.

Variable config : Config.
Variable ClientHello_parse : bytes -> PyExc + ClientHello.
Variable ctx_connect : ServerConn -> option PyExc * ServerConn.
Variable convert_to_ssl :
  forall (cert key method options cipher_list dhparams chain_file : PyObject),
    ClientConn -> Handshake.
Variable get_cert :
  string -> gset string -> PyExc + (PyObject * PyObject * PyObject).
Variable encode_idna : string -> PyExc + string.

Local Abbreviation establish_ssl_type :=
  (PyObject -> option string -> PyObject -> PyObject -> PyObject ->
   PyObject -> PyObject -> PyObject -> option (list string) ->
   ServerConn -> option PyExc * ServerConn).

(** X23: of all the ways [establish_ssl] may behave, only its behaviour on
    the layer's configuration, the resolved SNI, the filtered ALPN list and
    the present server connection matters to [_establish_tls_with_server]:
    the ALPN list the server is offered is the client's without the
    deprecated variants. *)
Theorem server_is_offered_advertised_alpn (f g : establish_ssl_type)
    (w : World) :
  f (clientcerts config) (sni_for_server_connection w)
    (openssl_method_server config) (openssl_options_server config)
    (openssl_verification_mode_server config)
    (openssl_trusted_cadir_server config)
    (openssl_trusted_ca_server config) (ciphers_server config)
    (advertised_alpn w) (server_conn w)
  = g (clientcerts config) (sni_for_server_connection w)
      (openssl_method_server config) (openssl_options_server config)
      (openssl_verification_mode_server config)
      (openssl_trusted_cadir_server config)
      (openssl_trusted_ca_server config) (ciphers_server config)
      (advertised_alpn w) (server_conn w) ->
  _establish_tls_with_server config f w
  = _establish_tls_with_server config g w.
Proof.
  intros H. unfold advertised_alpn in H.
  unfold _establish_tls_with_server, bind, attempt, log, get, ret, raise,
    on_server_conn.
  cbn. unfold sni_for_server_connection in *. cbn in H |- *.
  rewrite H. reflexivity.
Qed.



(** X25: whatever the certificate store, [_find_cert] either raises the
    codec's exception without asking the store, or asks the store once for
    a host and a set of names that does not hold that host. *)
Theorem find_cert_host_never_among_sans (w : World) :
  exists r : PyExc + (string * gset string),
    match r with
    | inl _ => True
    | inr (h, names) => h ∉ names
    end /\
    forall gc : string -> gset string ->
                PyExc + (PyObject * PyObject * PyObject),
      _find_cert config gc encode_idna w
      = match r with
        | inl e => (Raise e, w)
        | inr (h, names) => lift (gc h names) w
        end.
Proof.
  unfold _find_cert, bind, get, ret.
  destruct (sc_connected (server_conn w) && tls_established (server_conn w)
            && negb (no_upstream_cert config)).
  - destruct (cn (cert (server_conn w))) as [c|].
    + destruct (str_truthy c).
      * destruct (encode_idna c) as [e|h] eqn:He.
        -- exists (inl e). split; [exact I|]. intros gc. reflexivity.
        -- eexists (inr (h, _)). split; [|intros gc; reflexivity].
           set_solver.
      * eexists (inr (_, _)). split; [|intros gc; reflexivity]. set_solver.
    + eexists (inr (_, _)). split; [|intros gc; reflexivity]. set_solver.
  - eexists (inr (_, _)). split; [|intros gc; reflexivity]. set_solver.
Qed.

Variable establish_ssl : establish_ssl_type.

Local Abbreviation call next :=
  (__call__ config ClientHello_parse ctx_connect establish_ssl
     convert_to_ssl get_cert encode_idna next).

(** X26: the next layer runs last and only when everything before it
    returned: [__call__] is the parsing and the handshakes, followed by the
    next layer on the world they left; when they raise, the next layer is
    not reached. *)
Theorem next_layer_runs_last (next : M unit) (w : World) :
  call next w
  = match call (ret tt) w with
    | (Return _, w1) => next w1
    | (Raise e, w1) => (Raise e, w1)
    | (OutOfFuel, w1) => (OutOfFuel, w1)
    end.
Proof.
  unfold __call__. unfold bind at 1 5. unfold get at 1 3.
  cbv beta iota zeta.
  unfold bind at 1 4.
  destruct ((if _client_tls w
             then _parse_client_hello ClientHello_parse
             else ret tt) w) as [[u|e|] w1]; [|reflexivity|reflexivity].
  unfold bind at 1 3. unfold get. cbv beta iota.
  unfold bind.
  match goal with
  | |- context [(if ?c then ?a else ?b) w1] =>
      destruct ((if c then a else b) w1) as [[u'|e|] w2]
  end; reflexivity.
Qed.

(** X27: unless the server's certificate is needed first (client TLS and
    server TLS enabled, upstream certificates not switched off),
    [__call__] leaves the server connection alone and calls nothing on the
    context before the next layer runs; with client TLS disabled it does
    nothing at all before the next layer. *)
Theorem without_server_first_server_is_left_alone (w : World) :
  _client_tls w && _server_tls w && negb (no_upstream_cert config) = false ->
  server_conn (snd (call (ret tt) w)) = server_conn w /\
  ctx_calls (snd (call (ret tt) w)) = ctx_calls w /\
  (_client_tls w = false -> call (ret tt) w = (Return tt, w)).
Proof.
  intros Hno.
  destruct (call (ret tt) w) as [r w'] eqn:Hrun. cbn [snd].
  revert Hrun. unfold __call__. unfold bind at 1. unfold get at 1.
  cbv beta iota zeta. rewrite Hno.
  destruct (_client_tls w) eqn:Ht.
  - unfold bind at 1.
    pose proof (parse_client_hello_frame ClientHello_parse w)
      as (A1 & A2 & A3 & A4 & A5 & A6 & A7).
    destruct (_parse_client_hello ClientHello_parse w) as [[u|e|] w1];
      cbn [snd] in *;
      try (intros [= <- <-]; repeat split; [assumption|assumption|discriminate]).
    unfold bind at 1. unfold get at 1. cbv beta iota.
    rewrite A1, Ht. unfold bind at 1.
    pose proof (establish_tls_with_client_frame config convert_to_ssl
                  get_cert encode_idna w1)
      as (B1 & B2 & B3 & B4 & B5 & B6 & B7).
    cbv zeta in *.
    destruct (_establish_tls_with_client config convert_to_ssl get_cert
                encode_idna w1) as [[u'|e|] w2]; cbn [snd] in *;
      unfold ret; intros [= <- <-];
      (split; [congruence|split; [congruence|discriminate]]).
  - unfold bind, get, ret. cbn. rewrite Ht.
    intros [= <- <-]. auto.
Qed.

End Collaborators.

(** ** The statements on the sample collaborators *)

Import Samples.

(** The server-first path with a server handshake that fails and a client
    handshake that fails as well: the server's error is the one raised. *)
Lemma server_first_failure_on_sample :
  _establish_tls_with_client_and_server config0 ctx_connect_ok
    establish_ssl_fails convert_to_ssl_fails get_cert_ok encode_idna_ascii
    w_start
  = (Raise server_error,
     snd (_establish_tls_with_client config0 convert_to_ssl_fails
            get_cert_ok encode_idna_ascii w_server_failed)) /\
  client_attempts
    (snd (_establish_tls_with_client_and_server config0 ctx_connect_ok
            establish_ssl_fails convert_to_ssl_fails get_cert_ok
            encode_idna_ascii w_start))
  = S (client_attempts w_server_failed).
Proof.
  apply (server_first_failure_reraises_original config0 ctx_connect_ok
           establish_ssl_fails convert_to_ssl_fails get_cert_ok
           encode_idna_ascii w_start w_connected w_server_failed
           server_error);
    reflexivity.
Defined.

(** Two server names, the first of them of type 1: [client_sni] is that
    first name, not the first name of type 0. *)
Lemma client_sni_is_first_entry_not_first_host_name :
  client_sni
    (snd (_parse_client_hello (parse_to (hello_of [ext_sni_two])) w_hello))
  = Some "x" /\
  client_sni
    (snd (_parse_client_hello (parse_to (hello_of [ext_sni_two])) w_hello))
  <> first_type0_name (server_names ext_sni_two).
Proof. split; [reflexivity | discriminate]. Qed.

Lemma parse_client_hello_on_sample :
  exists w',
    _parse_client_hello (parse_to (hello_of [ext_sni_two; ext_alpn])) w_hello
    = (Return tt, w') /\
    client_sni w'
    = sni_after_walk (extensions (hello_of [ext_sni_two; ext_alpn]))
        (client_sni w_hello) /\
    log_of w'
    = log_of w_hello
      ++ walk_warnings (extensions (hello_of [ext_sni_two; ext_alpn]))
      ++ [(ParsedClientHello (client_sni w') (client_alpn_protocols w'),
           debug)].
Proof.
  apply (parse_client_hello_takes_first_server_name
           (parse_to (hello_of [ext_sni_two; ext_alpn])) w_hello hello_msg
           (hello_of [ext_sni_two; ext_alpn])).
  - reflexivity.
  - reflexivity.
  - intros e He Ht. apply list_elem_of_In in He.
    destruct He as [<-|[<-|[]]]; discriminate.
Defined.

(** An override by the empty string does not win over the client's SNI. *)
Lemma sni_override_empty_string_falls_back :
  sni_for_server_connection
    (world_of (Some "a.com") (Explicit "") true sc_plain [])
  = Some "a.com" /\
  sni_for_server_connection
    (world_of (Some "a.com") (Explicit "") true sc_plain [])
  <> Some "".
Proof. split; [reflexivity | discriminate]. Qed.

Lemma sni_override_explicit_on_sample :
  sni_for_server_connection
    (world_of (Some "a.com") (Explicit "b.com") true sc_plain [])
  = Some "b.com".
Proof.
  apply (proj1 (proj2 (sni_for_server_connection_cases
                         (world_of (Some "a.com") (Explicit "b.com") true
                            sc_plain []))) "b.com");
    [reflexivity | discriminate].
Defined.

Example sni_force_none :
  sni_for_server_connection
    (world_of (Some "a.com") ForceNone true sc_plain []) = None.
Proof. reflexivity. Qed.

Example sni_unset :
  sni_for_server_connection
    (world_of (Some "a.com") Unset true sc_plain []) = Some "a.com".
Proof. reflexivity. Qed.

Lemma alpn_select_callback_on_sample :
  exists choice,
    __alpn_select_callback (PyObj 0) ["h2"; "http/1.1"] w_mirror
    = (Return choice, snd (log (AlpnForClient choice) debug w_mirror)) /\
    (forall p, alpn_for_client_connection w_mirror = Some p ->
       p ∈ ["h2"; "http/1.1"] -> choice = p) /\
    ((forall p, alpn_for_client_connection w_mirror = Some p ->
        p ∉ ["h2"; "http/1.1"]) ->
     ALPN_PROTO_HTTP1 ∈ ["h2"; "http/1.1"] -> choice = ALPN_PROTO_HTTP1) /\
    ((forall p, alpn_for_client_connection w_mirror = Some p ->
        p ∉ ["h2"; "http/1.1"]) ->
     ALPN_PROTO_HTTP1 ∉ ["h2"; "http/1.1"] ->
     head ["h2"; "http/1.1"] = Some choice).
Proof.
  apply (alpn_select_callback_choice (PyObj 0) ["h2"; "http/1.1"] w_mirror).
  discriminate.
Defined.

Example alpn_upstream_choice :
  fst (__alpn_select_callback (PyObj 0) ["h2"; "http/1.1"] w_mirror)
  = Return "h2".
Proof. vm_compute. reflexivity. Qed.

Example alpn_default :
  fst (__alpn_select_callback (PyObj 0) ["spdy/3"; "http/1.1"] w_plain)
  = Return "http/1.1".
Proof. vm_compute. reflexivity. Qed.

Example alpn_first_option :
  fst (__alpn_select_callback (PyObj 0) ["spdy/3"] w_plain)
  = Return "spdy/3".
Proof. vm_compute. reflexivity. Qed.

Example alpn_no_options :
  fst (__alpn_select_callback (PyObj 0) [] w_plain) = Raise IndexError.
Proof. vm_compute. reflexivity. Qed.

Lemma find_cert_on_sample :
  _find_cert config0 get_cert_ok encode_idna_ascii w_mirror
  = lift (get_cert_ok "orig.com" (claimed_sans config0 w_mirror "orig.com"))
      w_mirror.
Proof.
  apply (find_cert_host_and_sans config0 get_cert_ok encode_idna_ascii
           w_mirror "orig.com").
  reflexivity.
Defined.

(** The set of the specification's example: the alternative name, the
    dialled address and the client's SNI; the common name is the primary
    subject and stays out. *)
Example claimed_sans_on_sample :
  claimed_sans config0 w_mirror "orig.com"
  = {["alt1.com"; "1.2.3.4"; "sni.com"]}.
Proof.
  apply set_eq. intros x. rewrite elem_of_claimed_sans. cbn.
  set_unfold. unfold is_Some. naive_solver.
Qed.

Lemma verification_error_on_sample :
  _establish_tls_with_server config0 establish_ssl_unverified w_plain
  = (Return tt,
     mkWorld (client_sni w_plain) (client_alpn_protocols w_plain)
       (_client_tls w_plain) (_server_tls w_plain)
       (_sni_from_server_change w_plain) sc_tls_unverified
       (client_conn w_plain)
       (log_of w_plain ++
        [(EstablishTlsWithServer, debug);
         (TlsVerificationFailed (ve_depth (mkVerifyErr 1 19))
            (ve_errno (mkVerifyErr 1 19)), error);
         (IgnoringServerVerificationError, error);
         (AlpnSelectedByServer (alpn_proto_negotiated sc_tls_unverified),
          debug)])
       (ctx_calls w_plain)).
Proof.
  apply (verification_error_is_logged_and_ignored config0
           establish_ssl_unverified w_plain sc_tls_unverified
           (mkVerifyErr 1 19)).
  - reflexivity.
  - reflexivity.
Defined.

(** At depth 1 without a [server_tls], the SNI that came with the call is
    not taken over by the layer: the whole call goes to the context. *)
Lemma set_server_without_tls_flag_is_forwarded :
  _sni_from_server_change
    (snd (set_server ctx_set_server_ok address1 None (Explicit "b.com") 1
            w_plain))
  <> Explicit "b.com" /\
  ctx_calls
    (snd (set_server ctx_set_server_ok address1 None (Explicit "b.com") 1
            w_plain))
  = [CtxSetServer address1 None (Explicit "b.com") 1].
Proof. split; [discriminate | reflexivity]. Qed.

Lemma set_server_on_sample :
  set_server ctx_set_server_ok address1 (Some false) (Explicit "b.com") 1
    w_plain
  = (Return tt,
     with_override
       (after_ctx_call w_plain (CtxSetServer address1 None Unset 1)
          (snd (ctx_set_server_ok address1 None Unset 1
                  (server_conn w_plain))))
       false (Explicit "b.com")).
Proof.
  apply (proj1 (set_server_cases ctx_set_server_ok address1 (Some false)
                  (Explicit "b.com") 1 w_plain) false);
    reflexivity.
Defined.

Example set_server_deeper :
  set_server ctx_set_server_ok address1 (Some false) (Explicit "b.com") 2
    w_plain
  = (Return tt,
     after_ctx_call w_plain
       (CtxSetServer address1 (Some false) (Explicit "b.com") 2)
       (snd (ctx_set_server_ok address1 (Some false) (Explicit "b.com") 2
               (server_conn w_plain)))).
Proof. reflexivity. Qed.

Lemma connect_on_sample :
  connect config0 ctx_connect_ok establish_ssl_unverified w_plain
  = (if _server_tls w_plain && negb (tls_established (server_conn w_plain))
     then _establish_tls_with_server config0 establish_ssl_unverified w_plain
     else (Return tt, w_plain)) /\
  connect config0 ctx_connect_ok establish_ssl_unverified w_start
  = (if _server_tls w_start
        && negb (tls_established (snd (ctx_connect_ok (server_conn w_start))))
     then _establish_tls_with_server config0 establish_ssl_unverified
            (after_ctx_call w_start CtxConnect
               (snd (ctx_connect_ok (server_conn w_start))))
     else (Return tt,
           after_ctx_call w_start CtxConnect
             (snd (ctx_connect_ok (server_conn w_start))))) /\
  connect config0 ctx_connect_fails establish_ssl_unverified w_start
  = (Raise (NetLibError "connection refused"),
     after_ctx_call w_start CtxConnect
       (snd (ctx_connect_fails (server_conn w_start)))).
Proof.
  split; [|split].
  - apply (proj1 (proj2 (connect_cases config0 ctx_connect_ok
                           establish_ssl_unverified w_plain))).
    reflexivity.
  - apply (proj2 (proj2 (connect_cases config0 ctx_connect_ok
                           establish_ssl_unverified w_start)));
      reflexivity.
  - apply (proj2 (proj2 (connect_cases config0 ctx_connect_fails
                           establish_ssl_unverified w_start)));
      reflexivity.
Defined.

(** Without a server connection the context connects and the handshake with
    the server follows on the new connection, here ending with the
    verification error logged and ignored. *)
Example connect_without_connection_runs_handshake :
  connect config0 ctx_connect_ok establish_ssl_unverified w_start
  = (Return tt,
     mkWorld (Some "a.com") None true true Unset sc_tls_unverified
       (mkClientConn stream_one_record false)
       [(EstablishTlsWithServer, debug);
        (TlsVerificationFailed 1 19, error);
        (IgnoringServerVerificationError, error);
        (AlpnSelectedByServer (Some "h2"), debug)]
       [CtxConnect]).
Proof. reflexivity. Qed.

Example connect_without_connection :
  ctx_calls
    (snd (connect config0 ctx_connect_ok establish_ssl_unverified w_start))
  = [CtxConnect].
Proof. reflexivity. Qed.

Example connect_with_tls_established :
  connect config0 ctx_connect_ok establish_ssl_unverified w_mirror
  = (Return tt, w_mirror).
Proof. reflexivity. Qed.

(** A ClientHello in one record and in two: the same bytes. *)
Example reassembled_alike :
  fst (_get_client_hello w_hello)
  = fst (_get_client_hello
           (world_of None Unset false sc_fresh stream_two_records)).
Proof. reflexivity. Qed.

(** A server-name extension without entries: the index is out of range. *)
Example parse_client_hello_no_entries :
  fst (_parse_client_hello (parse_to (hello_of [ext_sni_empty])) w_hello)
  = Raise IndexError.
Proof. reflexivity. Qed.

(** A handshake the parser rejects: logged twice, nothing extracted,
    nothing raised. *)
Example parse_client_hello_construct_error :
  _parse_client_hello parse_fails w_hello
  = (Return tt,
     mkWorld None None true false Unset sc_fresh
       (mkClientConn stream_one_record false)
       [(CannotParseClientHello (ConstructError "FieldError"), error);
        (RawClientHello [x03; x03], debug)]
       []).
Proof. reflexivity. Qed.

(** ** The further statements on the sample collaborators *)

Lemma client_hello_reassembled_on_sample :
  _get_client_hello (world_of None Unset false sc_fresh stream_two_records)
  = (Return hello_msg,
     world_of None Unset false sc_fresh stream_two_records).
Proof.
  apply (client_hello_reassembled_from_records hello_msg
           (mkTlsRecord x01 x00 x04 [x01; x00; x00; x02])
           [mkTlsRecord x01 x00 x02 [x03; x03]] []).
  - reflexivity.
  - repeat constructor.
  - reflexivity.
  - reflexivity.
  - unfold len. cbn. lia.
Defined.

Lemma non_tls_rejected_on_sample :
  _get_client_hello (world_of None Unset false sc_fresh stream_http)
  = (Raise (ProtocolException
              (ExpectedTlsRecord
                 (slice_to 5
                    (rfile (client_conn
                              (world_of None Unset false sc_fresh
                                 stream_http)))))),
     world_of None Unset false sc_fresh stream_http).
Proof.
  apply (get_client_hello_rejects_non_tls
           (world_of None Unset false sc_fresh stream_http)).
  left. reflexivity.
Defined.

Lemma truncated_record_on_sample :
  _get_client_hello (world_of None Unset false sc_fresh stream_truncated)
  = (Raise (ProtocolException (UnexpectedEOF [x01; x00])),
     world_of None Unset false sc_fresh stream_truncated).
Proof.
  apply (get_client_hello_truncated_record
           (world_of None Unset false sc_fresh stream_truncated)
           x01 x00 x05 [x01; x00]).
  - reflexivity.
  - unfold byte_val. cbn. lia.
  - unfold byte_val, len. cbn. lia.
Defined.

Lemma parser_error_on_sample :
  _parse_client_hello parse_fails w_hello
  = if is_ConstructError (ConstructError "FieldError")
    then (Return tt,
          mkWorld (client_sni w_hello) (client_alpn_protocols w_hello)
            (_client_tls w_hello) (_server_tls w_hello)
            (_sni_from_server_change w_hello) (server_conn w_hello)
            (client_conn w_hello)
            (log_of w_hello ++
             [(CannotParseClientHello (ConstructError "FieldError"), error);
              (RawClientHello (slice_from 4 hello_msg), debug)])
            (ctx_calls w_hello))
    else (Raise (ConstructError "FieldError"), w_hello).
Proof.
  apply (parser_error_logged_or_raised parse_fails w_hello hello_msg
           (ConstructError "FieldError"));
    reflexivity.
Defined.

Lemma alpn_protocols_on_sample :
  client_alpn_protocols
    (snd (_parse_client_hello
            (parse_to (hello_of [ext_sni_two; ext_alpn])) w_hello))
  = Some (alpn_protocols ext_alpn).
Proof.
  apply (alpn_protocols_kept_in_order
           (parse_to (hello_of [ext_sni_two; ext_alpn])) w_hello hello_msg
           (hello_of [ext_sni_two; ext_alpn]) [ext_sni_two] [] ext_alpn).
  - reflexivity.
  - reflexivity.
  - intros e He Ht. apply list_elem_of_In in He.
    destruct He as [<-|[<-|[]]]; discriminate.
  - reflexivity.
  - reflexivity.
  - intros e He. apply list_elem_of_In in He. destruct He.
Defined.

Lemma server_handshake_error_on_sample :
  _establish_tls_with_server config0 establish_ssl_fails w_plain
  = (Raise (ProtocolException
              (CannotEstablishTlsWithServer
                 (addr_host (address sc_plain), addr_port (address sc_plain))
                 (sni_for_server_connection w_plain) "handshake failure")),
     mkWorld (client_sni w_plain) (client_alpn_protocols w_plain)
       (_client_tls w_plain) (_server_tls w_plain)
       (_sni_from_server_change w_plain) sc_plain (client_conn w_plain)
       (log_of w_plain ++ [(EstablishTlsWithServer, debug)])
       (ctx_calls w_plain)).
Proof.
  apply (server_handshake_error_is_wrapped config0 establish_ssl_fails
           w_plain sc_plain "handshake failure").
  reflexivity.
Defined.

Lemma invalid_certificate_on_sample :
  _establish_tls_with_server config0 establish_ssl_bad_cert w_plain
  = match ssl_verification_error sc_refused with
    | Some err =>
        (Raise (ProtocolException
                  (CannotEstablishTlsWithServer
                     (addr_host (address sc_refused),
                      addr_port (address sc_refused))
                     (sni_for_server_connection w_plain)
                     "self signed certificate")),
         mkWorld (client_sni w_plain) (client_alpn_protocols w_plain)
           (_client_tls w_plain) (_server_tls w_plain)
           (_sni_from_server_change w_plain) sc_refused
           (client_conn w_plain)
           (log_of w_plain ++
            [(EstablishTlsWithServer, debug);
             (TlsVerificationFailed (ve_depth err) (ve_errno err), error);
             (AbortingConnectionAttempt, error)])
           (ctx_calls w_plain))
    | None =>
        (Raise TypeError,
         mkWorld (client_sni w_plain) (client_alpn_protocols w_plain)
           (_client_tls w_plain) (_server_tls w_plain)
           (_sni_from_server_change w_plain) sc_refused
           (client_conn w_plain)
           (log_of w_plain ++ [(EstablishTlsWithServer, debug)])
           (ctx_calls w_plain))
    end.
Proof.
  apply (invalid_certificate_aborts config0 establish_ssl_bad_cert w_plain
           sc_refused "self signed certificate").
  reflexivity.
Defined.

Lemma other_server_exception_on_sample :
  _establish_tls_with_server config0 establish_ssl_interrupted w_plain
  = (Raise KeyboardInterrupt,
     mkWorld (client_sni w_plain) (client_alpn_protocols w_plain)
       (_client_tls w_plain) (_server_tls w_plain)
       (_sni_from_server_change w_plain) sc_plain (client_conn w_plain)
       (log_of w_plain ++ [(EstablishTlsWithServer, debug)])
       (ctx_calls w_plain)).
Proof.
  apply (other_server_exception_passes config0 establish_ssl_interrupted
           w_plain sc_plain KeyboardInterrupt);
    reflexivity.
Defined.

Lemma client_handshake_without_certificate_on_sample :
  _establish_tls_with_client config0 convert_to_ssl_fails get_cert_fails
    encode_idna_ascii w_plain
  = (Raise (OtherException "no certificate authority"),
     mkWorld (client_sni w_plain) (client_alpn_protocols w_plain)
       (_client_tls w_plain) (_server_tls w_plain)
       (_sni_from_server_change w_plain) (server_conn w_plain)
       (client_conn w_plain)
       (log_of w_plain ++ [(EstablishTlsWithClient, debug)])
       (ctx_calls w_plain)).
Proof.
  apply (client_handshake_needs_certificate config0 convert_to_ssl_fails
           get_cert_fails encode_idna_ascii w_plain
           (OtherException "no certificate authority")).
  reflexivity.
Defined.

Lemma client_handshake_error_on_sample :
  _establish_tls_with_client config0 convert_to_ssl_alpn_fails get_cert_ok
    encode_idna_ascii w_mirror
  = (Raise match is_NetLibError (NetLibError "client went away") with
           | Some i => ProtocolException (CannotEstablishTlsWithClient i)
           | None => NetLibError "client went away"
           end,
     mkWorld (client_sni w_mirror) (client_alpn_protocols w_mirror)
       (_client_tls w_mirror) (_server_tls w_mirror)
       (_sni_from_server_change w_mirror) (server_conn w_mirror)
       (client_conn w_mirror)
       (log_of w_mirror
        ++ [(EstablishTlsWithClient, debug); (AlpnForClient "h2", debug)])
       (ctx_calls w_mirror)).
Proof.
  apply (client_handshake_error_is_wrapped config0 convert_to_ssl_alpn_fails
           get_cert_ok encode_idna_ascii w_mirror _ (PyObj 100) (PyObj 101)
           (PyObj 102) (NetLibError "client went away"));
    reflexivity.
Defined.

(** A handshake in which the client offers protocols: the layer's choice is
    logged after the line of the attempt, and the client connection is left
    with TLS established. *)
Example client_handshake_with_alpn_on_sample :
  _establish_tls_with_client config0 convert_to_ssl_alpn get_cert_ok
    encode_idna_ascii w_mirror
  = (Return tt,
     mkWorld (Some "sni.com") None true true Unset sc_tls
       (mkClientConn [] true)
       [(EstablishTlsWithClient, debug); (AlpnForClient "h2", debug)] []).
Proof. reflexivity. Qed.

(** The engine hands the callback no option to choose from: [options[0]]
    raises [IndexError] inside the callback, nothing is logged for it, and
    the engine ends the handshake with that exception, which is no
    [NetLibError] and passes as it is. *)
Example client_handshake_callback_raises_on_sample :
  _establish_tls_with_client config0
    (fun _ _ _ _ _ _ _ cc =>
       AlpnSelect (PyObj 7) []
         (fun r =>
            match r with
            | inl e => HandshakeEnd (Some e) cc
            | inr _ => HandshakeEnd None cc
            end))
    get_cert_ok encode_idna_ascii w_plain
  = (Raise IndexError,
     mkWorld None None true true Unset sc_plain (mkClientConn [] false)
       [(EstablishTlsWithClient, debug)] []).
Proof. reflexivity. Qed.

Lemma set_server_refused_on_sample :
  set_server ctx_set_server_fails address1 (Some true) (Explicit "b.com") 1
    w_plain
  = (Raise (OtherException "cannot change the server"),
     after_ctx_call w_plain (CtxSetServer address1 None Unset 1)
       (snd (ctx_set_server_fails address1 None Unset 1
               (server_conn w_plain)))).
Proof.
  apply (set_server_refused_keeps_override ctx_set_server_fails address1
           true (Explicit "b.com") w_plain
           (OtherException "cannot change the server")).
  reflexivity.
Defined.

Lemma sni_after_set_server_on_sample :
  sni_for_server_connection
    (snd (set_server ctx_set_server_ok address1 (Some true) ForceNone 1
            w_start))
  = None /\
  _server_tls
    (snd (set_server ctx_set_server_ok address1 (Some true) ForceNone 1
            w_start))
  = true /\
  client_sni
    (snd (set_server ctx_set_server_ok address1 (Some true) ForceNone 1
            w_start))
  = client_sni w_start.
Proof.
  apply (sni_after_set_server ctx_set_server_ok address1 true ForceNone
           w_start).
  reflexivity.
Defined.

Lemma server_first_without_connection_on_sample :
  _establish_tls_with_client_and_server config0 ctx_connect_fails
    establish_ssl_unverified convert_to_ssl_fails get_cert_ok
    encode_idna_ascii w_start
  = (Raise (NetLibError "connection refused"),
     after_ctx_call w_start CtxConnect
       (snd (ctx_connect_fails (server_conn w_start)))).
Proof.
  apply (server_first_needs_connection config0 ctx_connect_fails
           establish_ssl_unverified convert_to_ssl_fails get_cert_ok
           encode_idna_ascii w_start (NetLibError "connection refused")).
  reflexivity.
Defined.

Lemma server_first_interrupt_on_sample :
  _establish_tls_with_client_and_server config0 ctx_connect_ok
    establish_ssl_interrupted convert_to_ssl_fails get_cert_ok
    encode_idna_ascii w_start
  = (Raise KeyboardInterrupt, w_server_failed) /\
  client_attempts
    (snd (_establish_tls_with_client_and_server config0 ctx_connect_ok
            establish_ssl_interrupted convert_to_ssl_fails get_cert_ok
            encode_idna_ascii w_start))
  = client_attempts w_server_failed.
Proof.
  apply (server_first_interrupt_passes config0 ctx_connect_ok
           establish_ssl_interrupted convert_to_ssl_fails get_cert_ok
           encode_idna_ascii w_start w_connected w_server_failed
           KeyboardInterrupt);
    reflexivity.
Defined.

Lemma server_first_then_client_on_sample :
  _establish_tls_with_client_and_server config0 ctx_connect_ok
    establish_ssl_unverified convert_to_ssl_fails get_cert_ok
    encode_idna_ascii w_start
  = (Raise (ProtocolException
              (CannotEstablishTlsWithClient "client went away")),
     snd (_establish_tls_with_client config0 convert_to_ssl_fails
            get_cert_ok encode_idna_ascii w_server_done)).
Proof.
  apply (server_first_then_client config0 ctx_connect_ok
           establish_ssl_unverified convert_to_ssl_fails get_cert_ok
           encode_idna_ascii w_start w_connected w_server_done
           (snd (_establish_tls_with_client config0 convert_to_ssl_fails
                   get_cert_ok encode_idna_ascii w_server_done))
           (ProtocolException
              (CannotEstablishTlsWithClient "client went away")));
    reflexivity.
Defined.

Lemma call_aborted_on_sample :
  __call__ config0 parse_fails ctx_connect_ok establish_ssl_unverified
    convert_to_ssl_fails get_cert_ok encode_idna_ascii (ret tt)
    (world_of None Unset false sc_fresh stream_empty_record)
  = (Raise StructError,
     world_of None Unset false sc_fresh stream_empty_record).
Proof.
  apply (call_aborted_by_struct_error config0 parse_fails ctx_connect_ok
           establish_ssl_unverified convert_to_ssl_fails get_cert_ok
           encode_idna_ascii (ret tt)
           (world_of None Unset false sc_fresh stream_empty_record));
    reflexivity.
Defined.

Lemma server_offer_on_sample :
  _establish_tls_with_server config0 establish_ssl_fails w_plain
  = _establish_tls_with_server config0 establish_ssl_needs_alpn w_plain.
Proof.
  apply (server_is_offered_advertised_alpn config0 establish_ssl_fails
           establish_ssl_needs_alpn w_plain).
  reflexivity.
Defined.

Lemma client_only_on_sample :
  server_conn
    (snd (__call__ config0 (parse_to (hello_of [ext_alpn])) ctx_connect_ok
            establish_ssl_unverified convert_to_ssl_fails get_cert_ok
            encode_idna_ascii (ret tt) w_hello))
  = server_conn w_hello /\
  ctx_calls
    (snd (__call__ config0 (parse_to (hello_of [ext_alpn])) ctx_connect_ok
            establish_ssl_unverified convert_to_ssl_fails get_cert_ok
            encode_idna_ascii (ret tt) w_hello))
  = ctx_calls w_hello /\
  (_client_tls w_hello = false ->
   __call__ config0 (parse_to (hello_of [ext_alpn])) ctx_connect_ok
     establish_ssl_unverified convert_to_ssl_fails get_cert_ok
     encode_idna_ascii (ret tt) w_hello
   = (Return tt, w_hello)).
Proof.
  apply (without_server_first_server_is_left_alone config0
           (parse_to (hello_of [ext_alpn])) ctx_connect_ok
           convert_to_ssl_fails get_cert_ok encode_idna_ascii
           establish_ssl_unverified w_hello).
  reflexivity.
Defined.
